(** * ckpt2splat: checkpoint splats to binary PLY

    A shallow embedding of [examples/ckpt2splat.py].  The script reads a
    dictionary of six arrays, checks their row counts and writes a PLY file:
    an ASCII header followed by one record of 62 little-endian float32
    values per vertex.

    The embedding keeps the three kinds of effect the script has: raised
    exceptions, bytes written to the output file, and lines printed. *)

From Stdlib Require Import ZArith List Lia SpecFloat.
From Stdlib Require Import DecimalString DecimalNat DecimalFacts.
From Stdlib.Strings Require Import Byte Ascii.
From stdpp Require Import base option list strings gmap.

Local Open Scope string_scope.
Local Open Scope list_scope.

(** ** Exceptions *)

(** The exceptions the script can raise, with the data their messages
    carry. *)
Inductive exn : Type :=
| KeyError (key : string)             (* d[key] on an absent key *)
| ValueError (size width : nat)       (* numpy reshape(-1, width) *)
| RuntimeError (size rows width : nat)(* torch reshape(rows, width) *)
| AssertionError (msg : string)       (* a failed assert *)
| IndexError                          (* index or axis out of range *)
| StructError                         (* struct.pack: argument is not a float *)
| OverflowError                       (* struct.pack: float too large for 'f' *)
| FileNotFoundError (path : string)   (* stat of a missing file *)
| UnicodeEncodeError.                 (* encode('ascii') of other characters *)

(** Results of code that can only raise. *)
Definition res (A : Type) : Type := exn + A.

Definition rbind {A B} (m : res A) (k : A -> res B) : res B :=
  match m with
  | inl e => inl e
  | inr a => k a
  end.

Notation "'try' x <- m ; k" := (rbind m (fun x => k))
  (at level 100, x name, m at next level, right associativity).

(** ** struct.pack('<f', x) *)

Module Pack.

(** Python floats are binary64; [spec_float] holds their value (NaN
    payloads are not tracked). *)
Definition pyfloat : Type := spec_float.

(** The C conversion from double to float: round to nearest, ties to
    even, to 24 bits of precision with exponents up to 128. *)
Definition narrow32 (x : pyfloat) : spec_float :=
  match x with
  | S754_finite s m e => binary_round 24 128 s m e
  | _ => x
  end.

Definition is_inf (x : spec_float) : bool :=
  match x with
  | S754_infinity _ => true
  | _ => false
  end.

Definition sign_bit (s : bool) : Z := if s then Z.shiftl 1 31 else 0.

(** The IEEE-754 binary32 word of a narrowed value. *)
Definition bits32 (y : spec_float) : Z :=
  match y with
  | S754_zero s => sign_bit s
  | S754_infinity s => Z.lor (sign_bit s) 0x7F800000
  | S754_nan => 0x7FC00000
  | S754_finite s m e =>
      if Z.leb 0x800000 (Zpos m)
      then Z.lor (sign_bit s)
                 (Z.lor (Z.shiftl (e + 150) 23) (Zpos m - 0x800000))
      else Z.lor (sign_bit s) (Zpos m)
  end.

Definition byte_of_Z (z : Z) : byte :=
  match Byte.of_N (Z.to_N (Z.land z 0xFF)) with
  | Some b => b
  | None => x00
  end.

(** The four bytes of a 32-bit word, least significant first. *)
Definition le32 (w : Z) : list byte :=
  [ byte_of_Z w; byte_of_Z (Z.shiftr w 8);
    byte_of_Z (Z.shiftr w 16); byte_of_Z (Z.shiftr w 24) ].

(** The bytes [struct.pack('<f', x)] yields when it does not raise. *)
Definition f32_bytes (x : pyfloat) : list byte := le32 (bits32 (narrow32 x)).

(** CPython raises OverflowError when a finite double rounds to an
    infinite float. *)
Definition overflows (x : pyfloat) : bool :=
  is_inf (narrow32 x) && negb (is_inf x).

Definition pack_f (x : pyfloat) : res (list byte) :=
  if overflows x then inl OverflowError else inr (f32_bytes x).

(** Python float literals: the binary64 value nearest to a decimal
    fraction [n / d]. *)
Definition of_pos (p : positive) : pyfloat := binary_round 53 1024 false p 0.
Definition lit (n d : positive) : pyfloat := SFdiv 53 1024 (of_pos n) (of_pos d).
Definition zero : pyfloat := S754_zero false.

End Pack.

Import Pack.


(** ** Arrays *)

(** A numpy array (or a torch tensor, which the script converts without
    changing shape or values): its shape and its elements in row-major
    order. *)
Record ndarray : Type := Ndarray { shape : list nat; data : list pyfloat }.

Definition ndim (a : ndarray) : nat := length (shape a).

Definition size (a : ndarray) : nat := foldr Nat.mul 1%nat (shape a).

(** The arrays numpy can hold: as many elements as the shape says. *)
Definition wf_array (a : ndarray) : Prop := length (data a) = size a.

(** [a.reshape(-1, w)] for a positive [w]: the row count is inferred, and
    numpy raises ValueError when [w] does not divide the size. *)
Definition reshape_rows (w : nat) (a : ndarray) : res ndarray :=
  if (size a mod w =? 0)%nat
  then inr (Ndarray [(size a / w)%nat; w] (data a))
  else inl (ValueError (size a) w).

(** [t.reshape(n, w)] on a tensor: RuntimeError unless the size is [n * w]. *)
Definition reshape_to (n w : nat) (a : ndarray) : res ndarray :=
  if (size a =? n * w)%nat
  then inr (Ndarray [n; w] (data a))
  else inl (RuntimeError (size a) n w).

(** [a.shape[0]]: IndexError on a 0-dimensional array. *)
Definition shape0 (a : ndarray) : res nat :=
  match shape a with
  | [] => inl IndexError
  | r :: _ => inr r
  end.

(** What [a[i, j]] evaluates to: an element of a 2-D array, a sub-array of
    an array with more dimensions. *)
Inductive item : Type :=
| Scalar (x : pyfloat)
| SubArray.

(** [a[i, j]] for non-negative [i], [j]: IndexError with too many indices
    or an index out of bounds.  In a well-formed array the element at an
    index within bounds exists. *)
Definition index2 (a : ndarray) (i j : nat) : res item :=
  match shape a with
  | r :: c :: rest =>
      if (i <? r)%nat && (j <? c)%nat then
        match rest with
        | [] =>
            match data a !! (i * c + j)%nat with
            | Some x => inr (Scalar x)
            | None => inl IndexError
            end
        | _ :: _ => inr SubArray
        end
      else inl IndexError
  | _ => inl IndexError
  end.

(** [struct.pack] of one argument under the 'f' code: a sub-array is not a
    float. *)
Definition pack_item (v : item) : res (list byte) :=
  match v with
  | Scalar x => pack_f x
  | SubArray => inl StructError
  end.

Fixpoint pack_items (vs : list item) : res (list byte) :=
  match vs with
  | [] => inr []
  | v :: vs' =>
      try b <- pack_item v;
      try bs <- pack_items vs';
      inr (b ++ bs)
  end.

(** The arguments of a call are evaluated left to right before the call. *)
Fixpoint eval_args (args : list (res item)) : res (list item) :=
  match args with
  | [] => inr []
  | a :: args' =>
      try v <- a;
      try vs <- eval_args args';
      inr (v :: vs)
  end.

(** [struct.pack('<f..f', a[i, j1], .., a[i, jn])]. *)
Definition pack_row (a : ndarray) (i : nat) (js : list nat) : res (list byte) :=
  try vs <- eval_args (map (index2 a i) js);
  pack_items vs.

(** ** Dictionaries *)

(** [d[key]]. *)
Definition getitem {V} (d : gmap string V) (key : string) : res V :=
  match d !! key with
  | Some v => inr v
  | None => inl (KeyError key)
  end.

(** ** The world: files and standard output *)

(** The lines the script prints, by the values they are formatted from. *)
Inductive line : Type :=
| Converting (num_vertices : nat)   (* Converting {n} vertices to PLY format... *)
| Converted (output_path : string)  (* Successfully converted checkpoint to PLY: {path} *)
| FileSize (st_size : nat)          (* File size: {st_size / (1024*1024):.2f} MB *)
| MissingKeys (keys : list string). (* Warning: Missing required keys: {keys} *)

Record world : Type := World {
  files : gmap string (list byte);
  stdout : list line
}.

(** Code that prints, writes files and may raise. *)
Definition io (A : Type) : Type := world -> world * res A.

Definition ret {A} (a : A) : io A := fun w => (w, inr a).

Definition bind {A B} (m : io A) (k : A -> io B) : io B :=
  fun w =>
    match m w with
    | (w', inl e) => (w', inl e)
    | (w', inr a) => k a w'
    end.

Definition lift {A} (r : res A) : io A := fun w => (w, r).

Notation "'do' x <- m ; k" := (bind m (fun x => k))
  (at level 100, x name, m at next level, right associativity).
Notation "m ;; k" := (bind m (fun _ => k))
  (at level 100, k at level 200, right associativity).

Definition print (l : line) : io unit :=
  fun w => (World (files w) (stdout w ++ [l]), inr tt).

(** [open(path, 'wb')]: the file is created, or truncated when it exists.
    The path is taken to be writable: an [open] that raises OSError is
    outside this model. *)
Definition open_wb (path : string) : io string :=
  fun w => (World (<[path := []]> (files w)) (stdout w), inr path).

(** [f.write(bs)] on the file opened at [f]: the bytes are appended. *)
Definition write (f : string) (bs : list byte) : io unit :=
  fun w => (World (alter (fun old => old ++ bs) f (files w)) (stdout w), inr tt).

(** [Path(path).stat().st_size]. *)
Definition st_size (path : string) : io nat :=
  fun w => (w, match files w !! path with
               | Some bs => inr (length bs)
               | None => inl (FileNotFoundError path)
               end).

(** [for i in range(n): body]. *)
Fixpoint for_each (range : list nat) (body : nat -> io unit) : io unit :=
  match range with
  | [] => ret tt
  | i :: range' => body i ;; for_each range' body
  end.

Definition for_range (n : nat) (body : nat -> io unit) : io unit :=
  for_each (seq 0 n) body.

(** ** The script *)

(** [str(n)] for a non-negative integer, as f-strings format it. *)
Definition str (n : nat) : string := NilZero.string_of_uint (Nat.to_uint n).

Definition nl : string := String (ascii_of_nat 10) "".

Definition is_ascii (c : ascii) : bool :=
  match c with
  | Ascii _ _ _ _ _ _ _ b7 => negb b7
  end.

Fixpoint all_ascii (s : string) : bool :=
  match s with
  | EmptyString => true
  | String c s' => is_ascii c && all_ascii s'
  end.

(** [s.encode('ascii')]: one byte per character, UnicodeEncodeError on a
    character above 127. *)
Definition encode_ascii (s : string) : res (list byte) :=
  if all_ascii s then inr (String.list_byte_of_string s)
  else inl UnicodeEncodeError.

(** The six arrays the encoder works on. *)
Record arrays : Type := Arrays {
  means : ndarray;
  opacities : ndarray;
  quats : ndarray;
  scales : ndarray;
  sh0 : ndarray;
  shN : ndarray
}.

(** [extract_data_from_ckpt], from the dictionary [torch.load] returned. *)
Definition extract_data_from_ckpt (ckpt : gmap string (gmap string ndarray))
  : res (gmap string ndarray) :=
  try splats <- getitem ckpt "splats";
  try m <- getitem splats "means";
  try N <- shape0 m;
  try o <- getitem splats "opacities";
  try o' <- reshape_to N 1 o;
  let splats := <["opacities" := o']> splats in
  try s <- getitem splats "sh0";
  try s' <- reshape_to N 3 s;
  let splats := <["sh0" := s']> splats in
  try r <- getitem splats "shN";
  try r' <- reshape_to N 45 r;
  let splats := <["shN" := r']> splats in
  inr splats.

(** [if a.ndim == 1: a = a.reshape(-1, w)]. *)
Definition ensure_2d (w : nat) (a : ndarray) : res ndarray :=
  if (ndim a =? 1)%nat then reshape_rows w a else inr a.

(** Lines 40 to 73: the six lookups, then the six reshapes. *)
Definition load_arrays (checkpoint_data : gmap string ndarray) : res arrays :=
  try means <- getitem checkpoint_data "means";
  try opacities <- getitem checkpoint_data "opacities";
  try quats <- getitem checkpoint_data "quats";
  try scales <- getitem checkpoint_data "scales";
  try sh0 <- getitem checkpoint_data "sh0";
  try shN <- getitem checkpoint_data "shN";
  try means <- ensure_2d 3 means;
  try opacities <- ensure_2d 1 opacities;
  try quats <- ensure_2d 4 quats;
  try scales <- ensure_2d 3 scales;
  try sh0 <- ensure_2d 3 sh0;
  try shN <- ensure_2d 45 shN;
  inr (Arrays means opacities quats scales sh0 shN).

Definition mismatch_msg (label : string) (rows num_vertices : nat) : string :=
  label +:+ " shape mismatch: " +:+ str rows +:+ " vs " +:+ str num_vertices.

(** [assert a.shape[0] == num_vertices, f"{label} shape mismatch: .."]. *)
Definition assert_rows (label : string) (a : ndarray) (num_vertices : nat)
  : res unit :=
  try rows <- shape0 a;
  if (rows =? num_vertices)%nat then inr tt
  else inl (AssertionError (mismatch_msg label rows num_vertices)).

(** Lines 75 to 82: the vertex count and the five assertions. *)
Definition check_rows (a : arrays) : res nat :=
  try num_vertices <- shape0 (means a);
  try _ <- assert_rows "Opacities" (opacities a) num_vertices;
  try _ <- assert_rows "Quats" (quats a) num_vertices;
  try _ <- assert_rows "Scales" (scales a) num_vertices;
  try _ <- assert_rows "SH0" (sh0 a) num_vertices;
  try _ <- assert_rows "SHN" (shN a) num_vertices;
  inr num_vertices.

(** Lines 87 to 119: the header lines. *)
Definition ply_header (num_vertices : nat) : list string :=
  [ "ply";
    "format binary_little_endian 1.0";
    "comment Generated by checkpoint converter";
    "comment Vertical Axis: z";
    "element vertex " +:+ str num_vertices;
    "property float x";
    "property float y";
    "property float z";
    "property float nx";
    "property float ny";
    "property float nz";
    "property float f_dc_0";
    "property float f_dc_1";
    "property float f_dc_2" ]
  ++ map (fun i => "property float f_rest_" +:+ str i) (seq 0 45)
  ++ [ "property float opacity";
       "property float scale_0";
       "property float scale_1";
       "property float scale_2";
       "property float rot_0";
       "property float rot_1";
       "property float rot_2";
       "property float rot_3";
       "end_header" ].

(** ['\n'.join(header) + '\n']. *)
Definition header_str (header : list string) : string :=
  String.concat nl header +:+ nl.

(** Lines 129 to 149: the body of the loop over the vertices. *)
Definition write_vertex (f : string) (a : arrays) (i : nat) : io unit :=
  (do bs <- lift (pack_row (means a) i [0; 1; 2]%nat); write f bs) ;;
  (do bs <- lift (pack_items [Scalar zero; Scalar zero; Scalar zero]); write f bs) ;;
  (do bs <- lift (pack_row (sh0 a) i [0; 1; 2]%nat); write f bs) ;;
  for_range 45 (fun j => do bs <- lift (pack_row (shN a) i [j]); write f bs) ;;
  (do bs <- lift (pack_row (opacities a) i [0]%nat); write f bs) ;;
  (do bs <- lift (pack_row (scales a) i [0; 1; 2]%nat); write f bs) ;;
  (do bs <- lift (pack_row (quats a) i [0; 1; 2; 3]%nat); write f bs).

Definition convert_checkpoint_to_ply
    (checkpoint_data : gmap string ndarray) (output_path : string) : io unit :=
  do a <- lift (load_arrays checkpoint_data);
  do num_vertices <- lift (check_rows a);
  print (Converting num_vertices) ;;
  let header := ply_header num_vertices in
  (do f <- open_wb output_path;
   (do bs <- lift (encode_ascii (header_str header)); write f bs) ;;
   for_range num_vertices (write_vertex f a)) ;;
  print (Converted output_path) ;;
  do sz <- st_size output_path;
  print (FileSize sz).

Definition required_keys : list string :=
  ["means"; "opacities"; "quats"; "scales"; "sh0"; "shN"].

(** [key not in d]. *)
Definition not_in {V} (d : gmap string V) (key : string) : bool :=
  match d !! key with
  | Some _ => false
  | None => true
  end.

(** [main], from the loaded checkpoint and the output path of the command
    line. *)
Definition main (ckpt : gmap string (gmap string ndarray)) (output_path : string)
  : io unit :=
  do splat_data <- lift (extract_data_from_ckpt ckpt);
  let missing_keys := List.filter (not_in splat_data) required_keys in
  match missing_keys with
  | _ :: _ => print (MissingKeys missing_keys)
  | [] => convert_checkpoint_to_ply splat_data output_path
  end.

(** ** The bytes of a run that succeeds *)

(** Number of columns of a 2-D array. *)
Definition cols (a : ndarray) : nat :=
  match shape a with
  | [_; c] => c
  | _ => 0%nat
  end.

(** The element [a[i, j]] of a 2-D array. *)
Definition elt (a : ndarray) (i j : nat) : pyfloat :=
  default zero (data a !! (i * cols a + j)%nat).

Definition row_bytes (a : ndarray) (i : nat) (js : list nat) : list byte :=
  flat_map (fun j => f32_bytes (elt a i j)) js.

(** The record of vertex [i], field after field. *)
Definition record_bytes (a : arrays) (i : nat) : list byte :=
  row_bytes (means a) i [0; 1; 2]%nat
  ++ flat_map f32_bytes [zero; zero; zero]
  ++ row_bytes (sh0 a) i [0; 1; 2]%nat
  ++ row_bytes (shN a) i (seq 0 45)
  ++ row_bytes (opacities a) i [0]%nat
  ++ row_bytes (scales a) i [0; 1; 2]%nat
  ++ row_bytes (quats a) i [0; 1; 2; 3]%nat.

Definition body_bytes (a : arrays) (n : nat) : list byte :=
  flat_map (record_bytes a) (seq 0 n).

(** The bytes of the header. *)
Definition header_bytes (n : nat) : list byte :=
  String.list_byte_of_string (header_str (ply_header n)).

(** No element is too large for a float32. *)
Definition fits (a : ndarray) : Prop :=
  Forall (fun x => overflows x = false) (data a).

(** The elements the loop reads are not too large for a float32. *)
Definition reads_fit (n w : nat) (a : ndarray) : Prop :=
  forall i j, (i < n)%nat -> (j < w)%nat -> overflows (elt a i j) = false.

(** A loaded array the loop can read: 2-D, [n] rows, at least [w] columns. *)
Definition table (n w : nat) (a : ndarray) : Prop :=
  exists c, shape a = [n; c] /\ (w <= c)%nat /\ wf_array a /\ reads_fit n w a.

Definition tables (n : nat) (a : arrays) : Prop :=
  table n 3 (means a) /\ table n 1 (opacities a) /\ table n 4 (quats a) /\
  table n 3 (scales a) /\ table n 3 (sh0 a) /\ table n 45 (shN a).

(** An input array in canonical form: shape (n, w), or flat with n * w
    elements. *)
Definition canonical (n w : nat) (a : ndarray) : Prop :=
  (shape a = [n; w] \/ shape a = [(n * w)%nat]) /\ wf_array a /\ fits a.

(** The shape [ensure_2d] gives a canonical input. *)
Definition as_2d (n w : nat) (a : ndarray) : ndarray := Ndarray [n; w] (data a).

Record valid_splatset (d : gmap string ndarray) (n : nat) (a : arrays) : Prop := {
  vs_means : d !! "means" = Some (means a);
  vs_opacities : d !! "opacities" = Some (opacities a);
  vs_quats : d !! "quats" = Some (quats a);
  vs_scales : d !! "scales" = Some (scales a);
  vs_sh0 : d !! "sh0" = Some (sh0 a);
  vs_shN : d !! "shN" = Some (shN a);
  vs_means_ok : canonical n 3 (means a);
  vs_opacities_ok : canonical n 1 (opacities a);
  vs_quats_ok : canonical n 4 (quats a);
  vs_scales_ok : canonical n 3 (scales a);
  vs_sh0_ok : canonical n 3 (sh0 a);
  vs_shN_ok : canonical n 45 (shN a)
}.

(** The arrays after the reshapes of lines 61 to 73. *)
Definition reshaped (n : nat) (a : arrays) : arrays :=
  Arrays (as_2d n 3 (means a)) (as_2d n 1 (opacities a)) (as_2d n 4 (quats a))
         (as_2d n 3 (scales a)) (as_2d n 3 (sh0 a)) (as_2d n 45 (shN a)).

(** The world after a run that wrote [bs] to [path]. *)
Definition written (path : string) (n : nat) (bs : list byte) (w : world) : world :=
  World (<[path := bs]> (files w))
        (stdout w ++ [Converting n; Converted path; FileSize (length bs)]).

(** ** Sample inputs *)

(** The dictionary holding the six arrays of [a]. *)
Definition dict_of (a : arrays) : gmap string ndarray :=
  <["means" := means a]>
  (<["opacities" := opacities a]>
  (<["quats" := quats a]>
  (<["scales" := scales a]>
  (<["sh0" := sh0 a]>
  (<["shN" := shN a]> ∅))))).

(** An array of shape (1, len xs). *)
Definition row (xs : list pyfloat) : ndarray := Ndarray [1%nat; length xs] xs.

(** An array of shape (0, w). *)
Definition no_rows (w : nat) : ndarray := Ndarray [0%nat; w] [].

(** The one-vertex scene: means [[1,2,3]], opacities [[0.5]], quats
    [[1,0,0,0]], scales [[0.1,0.1,0.1]], sh0 [[0.2,0.3,0.4]], shN 45 zeros. *)
Definition one_vertex : arrays :=
  Arrays (row [lit 1 1; lit 2 1; lit 3 1])
         (row [lit 1 2])
         (row [lit 1 1; zero; zero; zero])
         (row [lit 1 10; lit 1 10; lit 1 10])
         (row [lit 2 10; lit 3 10; lit 4 10])
         (row (replicate 45 zero)).


(** The one-vertex scene with a second row of quaternions. *)
Definition two_quats : arrays :=
  Arrays (means one_vertex) (opacities one_vertex)
         (Ndarray [2; 4]%nat (replicate 8 zero))
         (scales one_vertex) (sh0 one_vertex) (shN one_vertex).

(** The one-vertex scene with two more columns of means. *)
Definition five_means : arrays :=
  Arrays (row [lit 1 1; lit 2 1; lit 3 1; lit 7 1; lit 9 1])
         (opacities one_vertex) (quats one_vertex) (scales one_vertex)
         (sh0 one_vertex) (shN one_vertex).

(** The one-vertex scene with means of shape (1, 2). *)
Definition two_means : arrays :=
  Arrays (row [lit 1 1; lit 2 1])
         (opacities one_vertex) (quats one_vertex) (scales one_vertex)
         (sh0 one_vertex) (shN one_vertex).

(** The one-vertex scene with a flat opacities array of length 2. *)
Definition flat_opacities : arrays :=
  Arrays (means one_vertex) (Ndarray [2%nat] [lit 1 2; lit 1 2])
         (quats one_vertex) (scales one_vertex) (sh0 one_vertex) (shN one_vertex).

(** The checkpoint of the one-vertex scene. *)
Definition ckpt_of (splats : gmap string ndarray) : gmap string (gmap string ndarray) :=
  {[ "splats" := splats ]}.

Definition world0 : world := World ∅ [].

(** Bytes [lo] to [hi], both included. *)
Definition slice (lo hi : nat) (bs : list byte) : list byte :=
  take (S hi - lo) (drop lo bs).

(** The 248 bytes expected after the header, in hexadecimal. *)
Definition one_vertex_body : list byte :=
  [ x00; x00; x80; x3f;  x00; x00; x00; x40;  x00; x00; x40; x40 ]
  ++ replicate 12 x00
  ++ [ xcd; xcc; x4c; x3e;  x9a; x99; x99; x3e;  xcd; xcc; xcc; x3e ]
  ++ replicate 180 x00
  ++ [ x00; x00; x00; x3f ]
  ++ [ xcd; xcc; xcc; x3d;  xcd; xcc; xcc; x3d;  xcd; xcc; xcc; x3d ]
  ++ [ x00; x00; x80; x3f;  x00; x00; x00; x00;  x00; x00; x00; x00;
       x00; x00; x00; x00 ].

(** ** The text of the header *)

(** The names of the 62 properties, in the order of the header. *)
Definition property_names : list string :=
  [ "x"; "y"; "z"; "nx"; "ny"; "nz"; "f_dc_0"; "f_dc_1"; "f_dc_2";
    "f_rest_0"; "f_rest_1"; "f_rest_2"; "f_rest_3"; "f_rest_4"; "f_rest_5";
    "f_rest_6"; "f_rest_7"; "f_rest_8"; "f_rest_9"; "f_rest_10";
    "f_rest_11"; "f_rest_12"; "f_rest_13"; "f_rest_14"; "f_rest_15";
    "f_rest_16"; "f_rest_17"; "f_rest_18"; "f_rest_19"; "f_rest_20";
    "f_rest_21"; "f_rest_22"; "f_rest_23"; "f_rest_24"; "f_rest_25";
    "f_rest_26"; "f_rest_27"; "f_rest_28"; "f_rest_29"; "f_rest_30";
    "f_rest_31"; "f_rest_32"; "f_rest_33"; "f_rest_34"; "f_rest_35";
    "f_rest_36"; "f_rest_37"; "f_rest_38"; "f_rest_39"; "f_rest_40";
    "f_rest_41"; "f_rest_42"; "f_rest_43"; "f_rest_44"; "opacity";
    "scale_0"; "scale_1"; "scale_2"; "rot_0"; "rot_1"; "rot_2"; "rot_3" ].

(** The text of the header before and after the vertex count. *)
Definition header_prefix : string :=
  "ply
format binary_little_endian 1.0
comment Generated by checkpoint converter
comment Vertical Axis: z
element vertex ".

Definition header_suffix : string :=
  "
property float x
property float y
property float z
property float nx
property float ny
property float nz
property float f_dc_0
property float f_dc_1
property float f_dc_2
property float f_rest_0
property float f_rest_1
property float f_rest_2
property float f_rest_3
property float f_rest_4
property float f_rest_5
property float f_rest_6
property float f_rest_7
property float f_rest_8
property float f_rest_9
property float f_rest_10
property float f_rest_11
property float f_rest_12
property float f_rest_13
property float f_rest_14
property float f_rest_15
property float f_rest_16
property float f_rest_17
property float f_rest_18
property float f_rest_19
property float f_rest_20
property float f_rest_21
property float f_rest_22
property float f_rest_23
property float f_rest_24
property float f_rest_25
property float f_rest_26
property float f_rest_27
property float f_rest_28
property float f_rest_29
property float f_rest_30
property float f_rest_31
property float f_rest_32
property float f_rest_33
property float f_rest_34
property float f_rest_35
property float f_rest_36
property float f_rest_37
property float f_rest_38
property float f_rest_39
property float f_rest_40
property float f_rest_41
property float f_rest_42
property float f_rest_43
property float f_rest_44
property float opacity
property float scale_0
property float scale_1
property float scale_2
property float rot_0
property float rot_1
property float rot_2
property float rot_3
end_header
".

(** ** Properties of runs *)

(** The world while the file [f] is open and holds [acc]. *)
Definition writing (f : string) (m : gmap string (list byte)) (out : list line)
    (acc : list byte) : world :=
  World (<[f := acc]> m) out.

(** Code that only appends to the file it is given: the bytes it adds and
    its result depend neither on the file nor on the world. *)
Definition appends {A} (p : string -> io A) : Prop :=
  exists more r, forall f m out acc,
    p f (writing f m out acc) = (writing f m out (acc ++ more), r).

(** The lines printed after the loop. *)
Definition closing_lines (path : string) (bs : list byte) (r : res unit) : list line :=
  match r with
  | inl _ => []
  | inr _ => [Converted path; FileSize (length bs)]
  end.

(** The arrays the assertions compare with the vertex count, with the
    names the messages give them. *)
Definition row_checked (a : arrays) : list (string * ndarray) :=
  [ ("Opacities", opacities a); ("Quats", quats a); ("Scales", scales a);
    ("SH0", sh0 a); ("SHN", shN a) ].

Fixpoint assert_all (checks : list (string * ndarray)) (n : nat) : res unit :=
  match checks with
  | [] => inr tt
  | (label, x) :: checks' =>
      try _ <- assert_rows label x n;
      assert_all checks' n
  end.

Definition has_rows (c : string * ndarray) : Prop := exists m, shape0 c.2 = inr m.

Definition rows_differ (n : nat) (c : string * ndarray) : Prop :=
  shape0 c.2 <> inr n.

(** A dictionary of 2-D arrays of [n] rows, each at least as wide as its
    field. *)
Record wide_splatset (d : gmap string ndarray) (n : nat) (a : arrays) : Prop := {
  ws_means : d !! "means" = Some (means a);
  ws_opacities : d !! "opacities" = Some (opacities a);
  ws_quats : d !! "quats" = Some (quats a);
  ws_scales : d !! "scales" = Some (scales a);
  ws_sh0 : d !! "sh0" = Some (sh0 a);
  ws_shN : d !! "shN" = Some (shN a);
  ws_tables : tables n a
}.

(** Two arrays with the same first [w] columns. *)
Definition same_columns (n w : nat) (x y : ndarray) : Prop :=
  forall i j, (i < n)%nat -> (j < w)%nat -> elt x i j = elt y i j.

Definition same_fields (n : nat) (a b : arrays) : Prop :=
  same_columns n 3 (means a) (means b) /\
  same_columns n 1 (opacities a) (opacities b) /\
  same_columns n 4 (quats a) (quats b) /\
  same_columns n 3 (scales a) (scales b) /\
  same_columns n 3 (sh0 a) (sh0 b) /\
  same_columns n 45 (shN a) (shN b).

(** The width of each field. *)
Definition field_widths : list (string * nat) :=
  [ ("means", 3%nat); ("opacities", 1%nat); ("quats", 4%nat);
    ("scales", 3%nat); ("sh0", 3%nat); ("shN", 45%nat) ].

(** The loaded arrays, with their keys and widths. *)
Definition loaded_fields (a : arrays) : list (string * nat * ndarray) :=
  [ ("means", 3%nat, means a); ("opacities", 1%nat, opacities a);
    ("quats", 4%nat, quats a); ("scales", 3%nat, scales a);
    ("sh0", 3%nat, sh0 a); ("shN", 45%nat, shN a) ].

(** The five fields whose row counts are compared with that of means, with
    their widths and the names the assertions give them. *)
Definition checked_fields : list (string * nat * string) :=
  [ ("opacities", 1%nat, "Opacities"); ("quats", 4%nat, "Quats");
    ("scales", 3%nat, "Scales"); ("sh0", 3%nat, "SH0"); ("shN", 45%nat, "SHN") ].

(** Every array but the one of [key] is present and in canonical form for
    [n] vertices. *)
Definition others_valid (d : gmap string ndarray) (n : nat) (key : string) : Prop :=
  forall k wk, (k, wk) ∈ field_widths -> k <> key ->
    exists y, d !! k = Some y /\ canonical n wk y.

(** What stops a run on a flat array of [len] elements that cannot give [n]
    rows of [width] columns: the ValueError of the reshape when the width
    does not divide the length, else the assertion error of the row
    check. *)
Definition flat_error (label : string) (len width n : nat) : exn :=
  if (len mod width =? 0)%nat
  then AssertionError
         (label +:+ " shape mismatch: " +:+ str (len / width) +:+ " vs " +:+ str n)
  else ValueError len width.

(** The run stops with an exception and leaves the world as it was. *)
Definition rejected_unwritten (d : gmap string ndarray) (path : string) (w : world)
  : Prop :=
  exists e, convert_checkpoint_to_ply d path w = (w, inl e).

(** ** More properties of runs *)

(** The exceptions the loop over the vertices can raise. *)
Definition loop_error (e : exn) : Prop :=
  e = IndexError \/ e = StructError \/ e = OverflowError.

(** Code that appends [len] bytes to the file it is given when it returns,
    and fewer when it raises, which it does with a loop exception only. *)
Definition emits {A} (len : nat) (p : string -> io A) : Prop :=
  exists more r,
    (forall f m out acc,
       p f (writing f m out acc) = (writing f m out (acc ++ more), r)) /\
    match r with
    | inr _ => length more = len
    | inl e => (length more < len)%nat /\ loop_error e
    end.

(** The 62 values of the record of vertex [i], in the order they are
    packed. *)
Definition record_values (a : arrays) (i : nat) : list pyfloat :=
  map (elt (means a) i) [0; 1; 2]%nat
  ++ [zero; zero; zero]
  ++ map (elt (sh0 a) i) [0; 1; 2]%nat
  ++ map (elt (shN a) i) (seq 0 45)
  ++ map (elt (opacities a) i) [0]%nat
  ++ map (elt (scales a) i) [0; 1; 2]%nat
  ++ map (elt (quats a) i) [0; 1; 2; 3]%nat.

(** The dictionary [extract_data_from_ckpt] returns: the three arrays
    reshaped in place. *)
Definition extracted (splats : gmap string ndarray) (n : nat) (o h r : ndarray)
  : gmap string ndarray :=
  <["shN" := Ndarray [n; 45%nat] (data r)]>
  (<["sh0" := Ndarray [n; 3%nat] (data h)]>
  (<["opacities" := Ndarray [n; 1%nat] (data o)]> splats)).

(** An array of any shape that holds [n * w] elements, none too large for
    a float32. *)
Definition holds (n w : nat) (x : ndarray) : Prop :=
  size x = (n * w)%nat /\ wf_array x /\ fits x.

(** The splats of a checkpoint [main] can convert: means of shape (n, 3),
    quats and scales in canonical form, and opacities, sh0 and shN of any
    shape with n, 3n and 45n elements. *)
Record valid_checkpoint (splats : gmap string ndarray) (n : nat) (a : arrays)
  : Prop := {
  vc_means : splats !! "means" = Some (means a);
  vc_opacities : splats !! "opacities" = Some (opacities a);
  vc_quats : splats !! "quats" = Some (quats a);
  vc_scales : splats !! "scales" = Some (scales a);
  vc_sh0 : splats !! "sh0" = Some (sh0 a);
  vc_shN : splats !! "shN" = Some (shN a);
  vc_means_ok : shape (means a) = [n; 3%nat] /\ wf_array (means a) /\ fits (means a);
  vc_opacities_ok : holds n 1 (opacities a);
  vc_quats_ok : canonical n 4 (quats a);
  vc_scales_ok : canonical n 3 (scales a);
  vc_sh0_ok : holds n 3 (sh0 a);
  vc_shN_ok : holds n 45 (shN a)
}.

(** One vertex as a trained model stores it: sh0 of shape (1, 1, 3), shN of
    shape (1, 15, 3) and flat opacities. *)
Definition trained_vertex : arrays :=
  Arrays (means one_vertex)
         (Ndarray [1%nat] [lit 1 2])
         (quats one_vertex) (scales one_vertex)
         (Ndarray [1; 1; 3]%nat [lit 2 10; lit 3 10; lit 4 10])
         (Ndarray [1; 15; 3]%nat (replicate 45 zero)).

(** The packed values of a sequence of writes, up to the first that
    raises, and the outcome of the sequence. *)
Fixpoint run_packs (rs : list (res (list byte))) : list byte * res unit :=
  match rs with
  | [] => ([], inr tt)
  | inl e :: _ => ([], inl e)
  | inr bs :: rs' => (bs ++ (run_packs rs').1, (run_packs rs').2)
  end.

(** The calls of [struct.pack] for vertex [i], in the order of the loop
    body. *)
Definition vertex_packs (a : arrays) (i : nat) : list (res (list byte)) :=
  [ pack_row (means a) i [0; 1; 2]%nat;
    pack_items [Scalar zero; Scalar zero; Scalar zero];
    pack_row (sh0 a) i [0; 1; 2]%nat ]
  ++ map (fun j => pack_row (shN a) i [j]) (seq 0 45)
  ++ [ pack_row (opacities a) i [0]%nat;
       pack_row (scales a) i [0; 1; 2]%nat;
       pack_row (quats a) i [0; 1; 2; 3]%nat ].

(** The calls of the whole loop. *)
Definition loop_packs (a : arrays) (n : nat) : list (res (list byte)) :=
  flat_map (vertex_packs a) (seq 0 n).

(** Code that writes the packed values [rs] one after the other into the
    file it is given, and stops at the first that raised. *)
Definition packs_as (rs : list (res (list byte))) (p : string -> io unit) : Prop :=
  forall f m out acc,
    p f (writing f m out acc)
    = (writing f m out (acc ++ (run_packs rs).1), (run_packs rs).2).

(** Six arrays without rows and with odd shapes: shape (0, 7), flat and
    empty, or (0, 2, 2). *)
Definition odd_empty : arrays :=
  Arrays (Ndarray [0; 7]%nat []) (Ndarray [0%nat] []) (Ndarray [0; 2; 2]%nat [])
         (Ndarray [0; 0]%nat []) (Ndarray [0%nat] []) (Ndarray [0; 1]%nat []).

(** The one-vertex scene with flat arrays of 4 and 5 elements for means and
    quats. *)
Definition ragged : arrays :=
  Arrays (Ndarray [4%nat] (replicate 4 zero)) (opacities one_vertex)
         (Ndarray [5%nat] (replicate 5 zero)) (scales one_vertex)
         (sh0 one_vertex) (shN one_vertex).

(** * Proofs *)

(** ** Packing *)

Section PackFacts.

Lemma length_le32 z : length (le32 z) = 4%nat.
Proof. reflexivity. Qed.

Lemma length_f32_bytes x : length (f32_bytes x) = 4%nat.
Proof. reflexivity. Qed.

Lemma pack_f_fits x : overflows x = false -> pack_f x = inr (f32_bytes x).
Proof. unfold pack_f. now intros ->. Qed.

Lemma length_row_bytes a i js : length (row_bytes a i js) = (4 * length js)%nat.
Proof.
  unfold row_bytes. induction js as [|j js IH]; simpl; [reflexivity|].
  rewrite IH. lia.
Qed.

Lemma length_record_bytes a i : length (record_bytes a i) = 248%nat.
Proof.
  unfold record_bytes.
  rewrite !length_app, !length_row_bytes, length_seq. reflexivity.
Qed.

Lemma length_records a (range : list nat) :
  length (flat_map (record_bytes a) range) = (length range * 248)%nat.
Proof.
  induction range as [|i range IH]; cbn [flat_map length]; [reflexivity|].
  rewrite length_app, length_record_bytes, IH. lia.
Qed.

Lemma length_body_bytes a n : length (body_bytes a n) = (n * 248)%nat.
Proof. unfold body_bytes. now rewrite length_records, length_seq. Qed.

End PackFacts.

(** ** Reading a 2-D array *)

Section ArrayFacts.

Variables (n w : nat) (a : ndarray).
Hypothesis Ha : table n w a.

Lemma index2_table i j :
  (i < n)%nat -> (j < w)%nat ->
  index2 a i j = inr (Scalar (elt a i j)) /\ overflows (elt a i j) = false.
Proof.
  destruct Ha as (c & Hs & Hc & Hwf & Hfit). intros Hi Hj.
  unfold index2, elt, cols. rewrite Hs.
  assert (Hlen : (i * c + j < length (data a))%nat).
  { rewrite Hwf. unfold size. rewrite Hs. simpl. nia. }
  destruct (lookup_lt_is_Some_2 _ _ Hlen) as [x Hx].
  replace (i <? n)%nat with true by (symmetry; apply Nat.ltb_lt; lia).
  replace (j <? c)%nat with true by (symmetry; apply Nat.ltb_lt; lia).
  rewrite Hx. simpl. split; [reflexivity|].
  specialize (Hfit i j Hi Hj). unfold elt, cols in Hfit.
  now rewrite Hs, Hx in Hfit.
Qed.

Lemma pack_row_table i js :
  (i < n)%nat -> Forall (fun j => (j < w)%nat) js ->
  pack_row a i js = inr (row_bytes a i js).
Proof.
  intros Hi Hjs. unfold pack_row, row_bytes.
  assert (Hargs : eval_args (map (index2 a i) js)
                  = inr (map (fun j => Scalar (elt a i j)) js)).
  { induction Hjs as [|j js Hj _ IH]; simpl; [reflexivity|].
    destruct (index2_table i j Hi Hj) as [-> _]. simpl. now rewrite IH. }
  rewrite Hargs. simpl.
  induction Hjs as [|j js Hj Hjs IH]; simpl; [reflexivity|].
  destruct (index2_table i j Hi Hj) as [_ Hfit].
  rewrite (pack_f_fits _ Hfit). simpl.
  rewrite IH; [reflexivity|].
  clear -Hi Hjs Ha. induction Hjs as [|j' js' Hj' _ IH']; simpl; [reflexivity|].
  destruct (index2_table i j' Hi Hj') as [-> _]. simpl. now rewrite IH'.
Qed.

End ArrayFacts.

(** ** The header *)

Lemma append_assoc (s1 s2 s3 : string) : (s1 +:+ s2) +:+ s3 = s1 +:+ (s2 +:+ s3).
Proof.
  induction s1 as [|c s1 IH]; [reflexivity|].
  change (String c ((s1 +:+ s2) +:+ s3) = String c (s1 +:+ (s2 +:+ s3))).
  now rewrite IH.
Qed.

(** The header is its prefix, the vertex count and its suffix. *)
Lemma header_str_text n :
  header_str (ply_header n) = header_prefix +:+ str n +:+ header_suffix.
Proof.
  pose (lines := String.substring 0 (String.length header_suffix - 1) header_suffix).
  transitivity ((header_prefix +:+ (str n +:+ lines)) +:+ nl); [reflexivity|].
  now rewrite !append_assoc.
Qed.

Lemma all_ascii_app s1 s2 : all_ascii (s1 +:+ s2) = all_ascii s1 && all_ascii s2.
Proof.
  induction s1 as [|c s1 IH]; [reflexivity|].
  change (is_ascii c && all_ascii (s1 +:+ s2)
          = is_ascii c && all_ascii s1 && all_ascii s2).
  now rewrite IH, andb_assoc.
Qed.

Lemma all_ascii_digits (d : Decimal.uint) : all_ascii (NilEmpty.string_of_uint d) = true.
Proof. induction d; simpl; auto. Qed.

Lemma all_ascii_str n : all_ascii (str n) = true.
Proof.
  unfold str, NilZero.string_of_uint.
  destruct (Nat.to_uint n) eqn:E; try reflexivity; rewrite <- E;
    apply all_ascii_digits.
Qed.

(** The header is ASCII text: encoding it does not raise. *)
Lemma encode_header n :
  encode_ascii (header_str (ply_header n)) = inr (header_bytes n).
Proof.
  unfold encode_ascii, header_bytes.
  replace (all_ascii (header_str (ply_header n))) with true; [reflexivity|].
  rewrite header_str_text, !all_ascii_app, all_ascii_str. reflexivity.
Qed.

(** ** Writing to the open file *)

Section WriteFacts.

Variables (f : string) (m : gmap string (list byte)) (out : list line).

Lemma write_at acc bs :
  write f bs (writing f m out acc) = (writing f m out (acc ++ bs), inr tt).
Proof. unfold write, writing. simpl. now rewrite alter_insert_eq. Qed.

Lemma write_packed acc (r : res (list byte)) bs :
  r = inr bs ->
  (do b <- lift r; write f b) (writing f m out acc)
  = (writing f m out (acc ++ bs), inr tt).
Proof. intros ->. unfold bind, lift. apply write_at. Qed.

Lemma seq_step {A} (p : io unit) (q : io A) (w1 w2 : world) :
  p w1 = (w2, inr tt) -> (p ;; q) w1 = q w2.
Proof. intros H. unfold bind. now rewrite H. Qed.

Lemma for_each_columns n w a i acc (range : list nat) :
  table n w a -> (i < n)%nat -> Forall (fun j => (j < w)%nat) range ->
  for_each range (fun j => do b <- lift (pack_row a i [j]); write f b)
           (writing f m out acc)
  = (writing f m out (acc ++ row_bytes a i range), inr tt).
Proof.
  intros Ha Hi Hrange. revert acc.
  induction Hrange as [|j range Hj _ IH]; intros acc; cbn [for_each].
  - unfold ret, row_bytes. simpl. now rewrite app_nil_r.
  - erewrite seq_step; cycle 1.
    { apply write_packed. apply (pack_row_table n w a Ha); [exact Hi|].
      constructor; [exact Hj|constructor]. }
    rewrite IH. unfold row_bytes. cbn [flat_map].
    now rewrite app_nil_r, app_assoc.
Qed.

End WriteFacts.

(** ** The loop over the vertices *)

Section LoopFacts.

Variables (f : string) (m : gmap string (list byte)) (out : list line).
Variables (n : nat) (a : arrays).
Hypothesis Ha : tables n a.

Local Ltac columns := repeat constructor; lia.

Lemma write_vertex_ok i acc :
  (i < n)%nat ->
  write_vertex f a i (writing f m out acc)
  = (writing f m out (acc ++ record_bytes a i), inr tt).
Proof.
  destruct Ha as (Hm & Ho & Hq & Hs & H0 & HN). intros Hi.
  unfold write_vertex, record_bytes.
  erewrite seq_step; cycle 1.
  { apply write_packed, (pack_row_table n 3 _ Hm); [exact Hi|columns]. }
  erewrite seq_step; cycle 1.
  { apply write_packed. reflexivity. }
  erewrite seq_step; cycle 1.
  { apply write_packed, (pack_row_table n 3 _ H0); [exact Hi|columns]. }
  erewrite seq_step; cycle 1.
  { apply (for_each_columns f m out n 45 _ i _ _ HN Hi).
    apply Forall_forall. intros j Hj. apply elem_of_seq in Hj. lia. }
  erewrite seq_step; cycle 1.
  { apply write_packed, (pack_row_table n 1 _ Ho); [exact Hi|columns]. }
  erewrite seq_step; cycle 1.
  { apply write_packed, (pack_row_table n 3 _ Hs); [exact Hi|columns]. }
  erewrite write_packed; cycle 1.
  { apply (pack_row_table n 4 _ Hq); [exact Hi|columns]. }
  now rewrite <- !app_assoc.
Qed.

Lemma for_each_vertices (range : list nat) acc :
  Forall (fun i => (i < n)%nat) range ->
  for_each range (write_vertex f a) (writing f m out acc)
  = (writing f m out (acc ++ flat_map (record_bytes a) range), inr tt).
Proof.
  intros Hrange. revert acc.
  induction Hrange as [|i range Hi _ IH]; intros acc; cbn [for_each flat_map].
  - unfold ret. now rewrite app_nil_r.
  - erewrite seq_step by (apply write_vertex_ok; exact Hi).
    rewrite IH. now rewrite app_assoc.
Qed.

End LoopFacts.

(** ** A run from loaded arrays *)

Lemma convert_loaded d path w a n :
  load_arrays d = inr a -> check_rows a = inr n -> tables n a ->
  convert_checkpoint_to_ply d path w
  = (written path n (header_bytes n ++ body_bytes a n) w, inr tt).
Proof.
  intros Hload Hrows Ha. unfold convert_checkpoint_to_ply.
  unfold bind at 1. unfold lift at 1. rewrite Hload.
  unfold bind at 1. unfold lift at 1. rewrite Hrows.
  unfold bind at 1. unfold print at 1. cbn [files stdout].
  unfold bind at 1. unfold bind at 1. unfold open_wb at 1. cbn [files stdout].
  fold (writing path (files w) (stdout w ++ [Converting n]) []).
  erewrite seq_step by apply write_packed, encode_header.
  unfold for_range. rewrite (for_each_vertices path _ _ n a Ha).
  2:{ apply Forall_forall. intros i Hi. apply elem_of_seq in Hi. lia. }
  unfold bind, print, st_size, writing. cbn [files stdout].
  rewrite lookup_insert_eq. unfold written. cbn [app].
  fold (body_bytes a n).
  now rewrite <- !app_assoc.
Qed.

(** ** Valid inputs load and pass the row checks *)

Lemma fits_reads n w a : fits a -> reads_fit n w a.
Proof.
  intros Hfit i j _ _. unfold elt.
  destruct (data a !! (i * cols a + j)%nat) as [x|] eqn:Hx; simpl.
  - unfold fits in Hfit. rewrite Forall_lookup in Hfit. exact (Hfit _ _ Hx).
  - reflexivity.
Qed.

Lemma ensure_2d_canonical n w a :
  (0 < w)%nat -> canonical n w a ->
  ensure_2d w a = inr (as_2d n w a) /\ table n w (as_2d n w a).
Proof.
  intros Hw ([Hs|Hs] & Hwf & Hfit); (split; [|exists w; repeat split]).
  - unfold ensure_2d, ndim, as_2d. rewrite Hs. simpl.
    destruct a as [sh xs]. simpl in *. now subst.
  - lia.
  - unfold wf_array, as_2d, size in *. rewrite Hs in Hwf. exact Hwf.
  - now apply fits_reads.
  - unfold ensure_2d, ndim, reshape_rows, size, as_2d. rewrite Hs. simpl.
    rewrite Nat.mul_1_r, Nat.Div0.mod_mul, Nat.div_mul by lia. reflexivity.
  - lia.
  - unfold wf_array, as_2d, size in *. rewrite Hs in Hwf. simpl in *. lia.
  - now apply fits_reads.
Qed.

Lemma load_arrays_valid d n a :
  valid_splatset d n a -> load_arrays d = inr (reshaped n a) /\ tables n (reshaped n a).
Proof.
  intros [Hm Ho Hq Hs H0 HN Cm Co Cq Cs C0 CN].
  destruct (ensure_2d_canonical n 3 _ ltac:(lia) Cm) as [Em Tm].
  destruct (ensure_2d_canonical n 1 _ ltac:(lia) Co) as [Eo To].
  destruct (ensure_2d_canonical n 4 _ ltac:(lia) Cq) as [Eq Tq].
  destruct (ensure_2d_canonical n 3 _ ltac:(lia) Cs) as [Es Ts].
  destruct (ensure_2d_canonical n 3 _ ltac:(lia) C0) as [E0 T0].
  destruct (ensure_2d_canonical n 45 _ ltac:(lia) CN) as [EN TN].
  split; [|repeat split; assumption].
  unfold load_arrays, getitem. rewrite Hm, Ho, Hq, Hs, H0, HN. cbn [rbind].
  rewrite Em, Eo, Eq, Es, E0, EN. reflexivity.
Qed.

Lemma assert_rows_table label n w a :
  table n w a -> assert_rows label a n = inr tt.
Proof.
  intros (c & Hs & _). unfold assert_rows, shape0. rewrite Hs. cbn [rbind].
  now rewrite Nat.eqb_refl.
Qed.

Lemma check_rows_tables n a : tables n a -> check_rows a = inr n.
Proof.
  intros (Hm & Ho & Hq & Hs & H0 & HN). unfold check_rows.
  destruct Hm as (c & Hc & _). unfold shape0 at 1. rewrite Hc. cbn [rbind].
  rewrite (assert_rows_table _ _ _ _ Ho), (assert_rows_table _ _ _ _ Hq),
    (assert_rows_table _ _ _ _ Hs), (assert_rows_table _ _ _ _ H0),
    (assert_rows_table _ _ _ _ HN).
  reflexivity.
Qed.

(** The run on a valid input. *)
Lemma convert_valid d n a path w :
  valid_splatset d n a ->
  convert_checkpoint_to_ply d path w
  = (written path n (header_bytes n ++ body_bytes (reshaped n a) n) w, inr tt).
Proof.
  intros Hv. destruct (load_arrays_valid d n a Hv) as [Hload Ht].
  exact (convert_loaded d path w _ n Hload (check_rows_tables _ _ Ht) Ht).
Qed.

(** ** Claims *)

(** Proves that a sample dictionary is a valid set. *)
Ltac valid_sample :=
  split;
  [ reflexivity | reflexivity | reflexivity | reflexivity | reflexivity | reflexivity
  | .. ];
  (split; [left; reflexivity | split; [reflexivity | repeat constructor]]).

(** C1. For every valid set of [n] vertices the run succeeds and the file
    holds the ASCII header followed by the records of the vertices; its
    size is the length of the header plus [n * 248] bytes, each record
    being 62 packed floats of 4 bytes. *)
Theorem file_size_law d n a path w :
  valid_splatset d n a ->
  let out := convert_checkpoint_to_ply d path w in
  out.2 = inr tt /\
  files out.1 !! path = Some (header_bytes n ++ body_bytes (reshaped n a) n) /\
  length (header_bytes n ++ body_bytes (reshaped n a) n)
    = (length (header_bytes n) + n * 248)%nat /\
  (forall i, length (record_bytes (reshaped n a) i) = (62 * 4)%nat).
Proof.
  intros Hv. cbv zeta. rewrite (convert_valid d n a path w Hv).
  unfold written. cbn [fst snd files].
  rewrite lookup_insert_eq, length_app, length_body_bytes.
  split; [reflexivity|]. split; [reflexivity|]. split; [reflexivity|].
  intros i. apply length_record_bytes.
Qed.

Lemma file_size_law_witness :
  valid_splatset (dict_of one_vertex) 1 one_vertex /\
  let out := convert_checkpoint_to_ply (dict_of one_vertex) "out.ply" world0 in
  out.2 = inr tt /\
  files out.1 !! "out.ply"
    = Some (header_bytes 1 ++ body_bytes (reshaped 1 one_vertex) 1) /\
  length (header_bytes 1 ++ body_bytes (reshaped 1 one_vertex) 1)
    = (length (header_bytes 1) + 1 * 248)%nat /\
  (forall i, length (record_bytes (reshaped 1 one_vertex) i) = (62 * 4)%nat).
Proof.
  assert (Hv : valid_splatset (dict_of one_vertex) 1 one_vertex) by valid_sample.
  exact (conj Hv
    (file_size_law (dict_of one_vertex) 1 one_vertex "out.ply" world0 Hv)).
Defined.



(** ** Records inside the body *)

Lemma drop_records a (range : list nat) k :
  drop (k * 248) (flat_map (record_bytes a) range)
  = flat_map (record_bytes a) (drop k range).
Proof.
  revert k. induction range as [|i range IH]; intros k.
  - rewrite drop_nil. cbn [flat_map]. apply drop_nil.
  - destruct k as [|k]; [reflexivity|].
    cbn [flat_map]. rewrite drop_app_ge by (rewrite length_record_bytes; lia).
    rewrite length_record_bytes.
    replace (S k * 248 - 248)%nat with (k * 248)%nat by lia.
    apply IH.
Qed.

Lemma body_from a n i :
  (i < n)%nat ->
  exists rest, drop (i * 248) (body_bytes a n) = record_bytes a i ++ rest.
Proof.
  intros Hi. unfold body_bytes. rewrite drop_records.
  replace n with (i + S (n - S i))%nat by lia.
  rewrite seq_app, drop_app_length' by now rewrite length_seq.
  cbn [seq flat_map]. eauto.
Qed.

(** C8. In the body of every valid run the three normal components of
    every vertex (bytes 12 to 23 of its record) are the float32 0.0, twelve
    zero bytes, whatever the input values. *)
Theorem normals_are_zero d n a path w :
  valid_splatset d n a ->
  exists body,
    files (convert_checkpoint_to_ply d path w).1 !! path
      = Some (header_bytes n ++ body) /\
    forall i, (i < n)%nat ->
      take 12 (drop (i * 248 + 12) body) = replicate 12 x00 /\
      take 12 (drop (i * 248 + 12) body) = flat_map f32_bytes [zero; zero; zero].
Proof.
  intros Hv. exists (body_bytes (reshaped n a) n).
  rewrite (convert_valid d n a path w Hv). unfold written. cbn [fst files].
  rewrite lookup_insert_eq. split; [reflexivity|].
  intros i Hi. destruct (body_from (reshaped n a) n i Hi) as [rest Hrest].
  rewrite <- drop_drop, Hrest. unfold record_bytes.
  rewrite <- !app_assoc.
  rewrite drop_app_length' by now rewrite length_row_bytes.
  split; reflexivity.
Qed.

Lemma normals_are_zero_witness :
  valid_splatset (dict_of one_vertex) 1 one_vertex /\
  exists body,
    files (convert_checkpoint_to_ply (dict_of one_vertex) "out.ply" world0).1
      !! "out.ply" = Some (header_bytes 1 ++ body) /\
    forall i, (i < 1)%nat ->
      take 12 (drop (i * 248 + 12) body) = replicate 12 x00 /\
      take 12 (drop (i * 248 + 12) body) = flat_map f32_bytes [zero; zero; zero].
Proof.
  assert (Hv : valid_splatset (dict_of one_vertex) 1 one_vertex) by valid_sample.
  exact (conj Hv
    (normals_are_zero (dict_of one_vertex) 1 one_vertex "out.ply" world0 Hv)).
Defined.

(** ** The one-vertex scene *)

(** C2. On the one-vertex scene the run writes the header and then 248
    bytes: the position (1, 2, 3) in bytes 0 to 11, zeros in 12 to 23,
    (0.2, 0.3, 0.4) in 24 to 35, forty-five 0.0 in 36 to 215, 0.5 in 216 to
    219, (0.1, 0.1, 0.1) in 220 to 231 and (1, 0, 0, 0) in 232 to 247, each
    value a little-endian float32.  For every valid input the record of a
    vertex is its position, normal, sh0, shN, opacity, scale and rotation,
    in this order. *)
Theorem one_vertex_layout :
  (let out := convert_checkpoint_to_ply (dict_of one_vertex) "out.ply" world0 in
   out.2 = inr tt /\
   files out.1 !! "out.ply" = Some (header_bytes 1 ++ one_vertex_body)) /\
  length one_vertex_body = 248%nat /\
  slice 0 11 one_vertex_body = flat_map f32_bytes [lit 1 1; lit 2 1; lit 3 1] /\
  slice 12 23 one_vertex_body = flat_map f32_bytes [zero; zero; zero] /\
  slice 24 35 one_vertex_body = flat_map f32_bytes [lit 2 10; lit 3 10; lit 4 10] /\
  slice 36 215 one_vertex_body = flat_map f32_bytes (replicate 45 zero) /\
  slice 216 219 one_vertex_body = f32_bytes (lit 1 2) /\
  slice 220 231 one_vertex_body = flat_map f32_bytes [lit 1 10; lit 1 10; lit 1 10] /\
  slice 232 247 one_vertex_body = flat_map f32_bytes [lit 1 1; zero; zero; zero] /\
  (forall d n a path w,
     valid_splatset d n a ->
     files (convert_checkpoint_to_ply d path w).1 !! path
     = Some (header_bytes n ++
             flat_map (fun i =>
                 row_bytes (means (reshaped n a)) i [0; 1; 2]%nat
                 ++ flat_map f32_bytes [zero; zero; zero]
                 ++ row_bytes (sh0 (reshaped n a)) i [0; 1; 2]%nat
                 ++ row_bytes (shN (reshaped n a)) i (seq 0 45)
                 ++ row_bytes (opacities (reshaped n a)) i [0]%nat
                 ++ row_bytes (scales (reshaped n a)) i [0; 1; 2]%nat
                 ++ row_bytes (quats (reshaped n a)) i [0; 1; 2; 3]%nat)
               (seq 0 n))).
Proof.
  split; [|repeat (split; [vm_compute; reflexivity|])].
  - cbv zeta.
    rewrite (convert_valid (dict_of one_vertex) 1 one_vertex) by valid_sample.
    unfold written. cbn [fst snd files]. rewrite lookup_insert_eq.
    split; [reflexivity|].
    apply (f_equal (fun body => Some (header_bytes 1 ++ body))).
    vm_compute. reflexivity.
  - intros d n a path w Hv. rewrite (convert_valid d n a path w Hv).
    unfold written. cbn [fst files]. now rewrite lookup_insert_eq.
Qed.

Lemma one_vertex_layout_witness :
  valid_splatset (dict_of one_vertex) 1 one_vertex /\
  exists body,
    files (convert_checkpoint_to_ply (dict_of one_vertex) "out.ply" world0).1
      !! "out.ply" = Some (header_bytes 1 ++ body) /\
    body = one_vertex_body.
Proof.
  assert (Hv : valid_splatset (dict_of one_vertex) 1 one_vertex) by valid_sample.
  split; [exact Hv|].
  eexists. split.
  - exact (proj2 (proj2 (proj2 (proj2 (proj2 (proj2 (proj2 (proj2 (proj2
      one_vertex_layout))))))))
      (dict_of one_vertex) 1 one_vertex "out.ply" world0 Hv).
  - vm_compute. reflexivity.
Defined.

(** ** Code that appends to the file *)

Section Appends.

Lemma appends_write bs : appends (fun f => write f bs).
Proof. exists bs, (inr tt). intros f m out acc. apply write_at. Qed.

Lemma appends_lift {A} (r : res A) : appends (fun _ => lift r).
Proof.
  exists [], r. intros f m out acc. unfold lift. now rewrite app_nil_r.
Qed.

Lemma appends_bind {A B} (p : string -> io A) (k : string -> A -> io B) :
  appends p -> (forall x, appends (fun f => k f x)) ->
  appends (fun f => bind (p f) (k f)).
Proof.
  intros (more & r & Hp) Hk. destruct r as [e|x].
  - exists more, (inl e). intros f m out acc. unfold bind. now rewrite Hp.
  - destruct (Hk x) as (more' & r' & Hkx).
    exists (more ++ more'), r'. intros f m out acc.
    unfold bind. now rewrite Hp, Hkx, app_assoc.
Qed.

Lemma appends_for_each (range : list nat) (body : string -> nat -> io unit) :
  (forall i, appends (fun f => body f i)) ->
  appends (fun f => for_each range (body f)).
Proof.
  intros Hbody. induction range as [|i range IH]; cbn [for_each].
  - exists [], (inr tt). intros f m out acc. unfold ret. now rewrite app_nil_r.
  - apply (appends_bind (fun f => body f i) (fun f _ => for_each range (body f))).
    + apply Hbody.
    + intros _. exact IH.
Qed.

Lemma appends_packed (r : res (list byte)) :
  appends (fun f => do bs <- lift r; write f bs).
Proof.
  apply (appends_bind (fun _ => lift r) (fun f bs => write f bs)).
  - apply appends_lift.
  - intros bs. apply appends_write.
Qed.

Lemma appends_then {B} (p : string -> io unit) (q : string -> io B) :
  appends p -> appends q -> appends (fun f => p f ;; q f).
Proof.
  intros Hp Hq. apply (appends_bind p (fun f _ => q f)); [exact Hp|].
  intros _. exact Hq.
Qed.

Lemma appends_write_vertex a i : appends (fun f => write_vertex f a i).
Proof.
  unfold write_vertex, for_range.
  do 3 (apply appends_then; [apply appends_packed|]).
  apply appends_then.
  { apply (appends_for_each (seq 0 45)
             (fun f j => do bs <- lift (pack_row (shN a) i [j]); write f bs)).
    intros j. apply appends_packed. }
  do 2 (apply appends_then; [apply appends_packed|]).
  apply appends_packed.
Qed.

End Appends.

(** A run whose row checks pass: the file holds the header and then what
    the loop wrote; the bytes and the result do not depend on the path or
    on the world. *)
Lemma run_after_checks d a n :
  load_arrays d = inr a -> check_rows a = inr n ->
  exists more r, forall path w,
    convert_checkpoint_to_ply d path w
    = (World (<[path := header_bytes n ++ more]> (files w))
             (stdout w ++ Converting n
                :: closing_lines path (header_bytes n ++ more) r), r).
Proof.
  intros Hload Hrows.
  destruct (appends_for_each (seq 0 n) (fun f => write_vertex f a)
              (appends_write_vertex a)) as (more & r & Hloop).
  exists more, r. intros path w. unfold convert_checkpoint_to_ply.
  unfold bind at 1. unfold lift at 1. rewrite Hload.
  unfold bind at 1. unfold lift at 1. rewrite Hrows.
  unfold bind at 1. unfold print at 1. cbn [files stdout].
  unfold bind at 1. unfold bind at 1. unfold open_wb at 1. cbn [files stdout].
  fold (writing path (files w) (stdout w ++ [Converting n]) []).
  erewrite seq_step by apply write_packed, encode_header. cbn [app].
  unfold for_range. rewrite Hloop.
  destruct r as [e|[]]; unfold writing, closing_lines.
  - reflexivity.
  - unfold bind, print, st_size. cbn [files stdout].
    rewrite lookup_insert_eq. now rewrite <- !app_assoc.
Qed.

Lemma convert_load_fails d e path w :
  load_arrays d = inl e -> convert_checkpoint_to_ply d path w = (w, inl e).
Proof.
  intros H. unfold convert_checkpoint_to_ply, bind, lift. now rewrite H.
Qed.

Lemma convert_check_fails d a e path w :
  load_arrays d = inr a -> check_rows a = inl e ->
  convert_checkpoint_to_ply d path w = (w, inl e).
Proof.
  intros Hl Hc. unfold convert_checkpoint_to_ply, bind, lift. now rewrite Hl, Hc.
Qed.

(** Once the row checks pass, the file starts with the header, whatever
    happens in the loop. *)
Lemma header_written_first d a n path w :
  load_arrays d = inr a -> check_rows a = inr n ->
  exists rest,
    files (convert_checkpoint_to_ply d path w).1 !! path
    = Some (header_bytes n ++ rest).
Proof.
  intros Hload Hrows.
  destruct (run_after_checks d a n Hload Hrows) as (more & r & Hrun).
  exists more. rewrite Hrun. cbn [fst files]. apply lookup_insert_eq.
Qed.

(** C3. For every vertex count the header is: [ply], the format line
    [binary_little_endian 1.0], two comment lines, [element vertex n], the
    62 [property float] lines named x, y, z, nx, ny, nz, f_dc_0..2,
    f_rest_0..44, opacity, scale_0..2, rot_0..3 in this order, and
    [end_header]; every line ends with a newline, and no property line
    depends on the count or on the arrays.  It is the first thing a run
    writes once the row checks have passed. *)
Theorem header_layout n :
  ply_header n
  = [ "ply"; "format binary_little_endian 1.0";
      "comment Generated by checkpoint converter"; "comment Vertical Axis: z";
      "element vertex " +:+ str n ]
    ++ map (fun name => "property float " +:+ name) property_names
    ++ [ "end_header" ] /\
  length property_names = 62%nat /\
  property_names
  = [ "x"; "y"; "z"; "nx"; "ny"; "nz" ]
    ++ map (fun i => "f_dc_" +:+ str i) (seq 0 3)
    ++ map (fun i => "f_rest_" +:+ str i) (seq 0 45)
    ++ [ "opacity" ]
    ++ map (fun i => "scale_" +:+ str i) (seq 0 3)
    ++ map (fun i => "rot_" +:+ str i) (seq 0 4) /\
  header_str (ply_header n) = header_prefix +:+ str n +:+ header_suffix /\
  encode_ascii (header_str (ply_header n)) = inr (header_bytes n) /\
  (forall d a path w,
     load_arrays d = inr a -> check_rows a = inr n ->
     exists rest,
       files (convert_checkpoint_to_ply d path w).1 !! path
       = Some (header_bytes n ++ rest)).
Proof.
  split; [reflexivity|]. split; [reflexivity|]. split; [reflexivity|].
  split; [apply header_str_text|]. split; [apply encode_header|].
  intros d a path w. apply header_written_first.
Qed.

Lemma header_layout_witness :
  load_arrays (dict_of one_vertex) = inr one_vertex /\
  check_rows one_vertex = inr 1%nat /\
  exists rest,
    files (convert_checkpoint_to_ply (dict_of one_vertex) "out.ply" world0).1
      !! "out.ply"
    = Some (header_bytes 1 ++ rest).
Proof.
  split; [reflexivity|]. split; [reflexivity|].
  exact (proj2 (proj2 (proj2 (proj2 (proj2 (header_layout 1)))))
           (dict_of one_vertex) one_vertex "out.ply" world0
           eq_refl eq_refl).
Defined.

(** C9. The encoder is deterministic: two runs on the same dictionary,
    whatever the paths and the worlds they start from, either both stop
    with the same exception before the file is opened, leaving both worlds
    as they were, or end with the same result and the same bytes in their
    files. *)
Theorem deterministic d path1 path2 w1 w2 :
  (exists e,
     convert_checkpoint_to_ply d path1 w1 = (w1, inl e) /\
     convert_checkpoint_to_ply d path2 w2 = (w2, inl e)) \/
  (exists bs r,
     (convert_checkpoint_to_ply d path1 w1).2 = r /\
     (convert_checkpoint_to_ply d path2 w2).2 = r /\
     files (convert_checkpoint_to_ply d path1 w1).1 !! path1 = Some bs /\
     files (convert_checkpoint_to_ply d path2 w2).1 !! path2 = Some bs).
Proof.
  destruct (load_arrays d) as [e|a] eqn:Hload.
  { left. exists e. split; now apply convert_load_fails. }
  destruct (check_rows a) as [e|n] eqn:Hrows.
  { left. exists e. split; now apply convert_check_fails with a. }
  right. destruct (run_after_checks d a n Hload Hrows) as (more & r & Hrun).
  exists (header_bytes n ++ more), r. rewrite !Hrun. cbn [fst snd files].
  rewrite !lookup_insert_eq. repeat split.
Qed.

(** ** Row counts *)

Lemma check_rows_assert_all a :
  check_rows a
  = (try n <- shape0 (means a); try _ <- assert_all (row_checked a) n; inr n).
Proof.
  unfold check_rows, row_checked. destruct (shape0 (means a)) as [e|n];
    [reflexivity|]. cbn [rbind assert_all].
  repeat match goal with
         | |- context [assert_rows ?l ?x ?n] =>
             destruct (assert_rows l x n) as [?|[]]; cbn [rbind]
         end; reflexivity.
Qed.

Lemma assert_all_mismatch n (checks : list (string * ndarray)) :
  Forall has_rows checks -> Exists (rows_differ n) checks ->
  exists before label x m after,
    checks = before ++ (label, x) :: after /\
    Forall (fun c => shape0 c.2 = inr n) before /\
    shape0 x = inr m /\ m <> n /\
    assert_all checks n = inl (AssertionError (mismatch_msg label m n)).
Proof.
  induction 1 as [|[label x] checks [m Hm] Hall IH]; intros Hex.
  - inversion Hex.
  - simpl in Hm. destruct (decide (m = n)) as [->|Hne].
    + assert (Hex' : Exists (rows_differ n) checks).
      { inversion Hex as [? ? Hd|]; subst; [|assumption].
        unfold rows_differ in Hd. simpl in Hd. congruence. }
      destruct (IH Hex') as (before & l' & x' & m' & after & -> & Hb & Hx & Hn & Hrun).
      exists ((label, x) :: before), l', x', m', after.
      repeat split; try assumption.
      * constructor; assumption.
      * cbn [assert_all]. unfold assert_rows at 1. rewrite Hm. cbn [rbind].
        now rewrite Nat.eqb_refl.
    + exists [], label, x, m, checks. repeat split; try assumption.
      * constructor.
      * cbn [assert_all]. unfold assert_rows. rewrite Hm. cbn [rbind].
        apply Nat.eqb_neq in Hne. now rewrite Hne.
Qed.

(** C4. When every array is loaded and has a leading dimension, and the
    leading dimension of one of them differs from the row count [n] of
    means, the run stops with the assertion error of the first such array:
    its message names the array, its row count [m] and [n].  The world is
    left as it was: no file is created and nothing is printed. *)
Theorem row_mismatch_rejected d a n path w :
  load_arrays d = inr a ->
  shape0 (means a) = inr n ->
  Forall has_rows (row_checked a) ->
  Exists (rows_differ n) (row_checked a) ->
  exists before label x m after,
    row_checked a = before ++ (label, x) :: after /\
    Forall (fun c => shape0 c.2 = inr n) before /\
    shape0 x = inr m /\ m <> n /\
    convert_checkpoint_to_ply d path w
    = (w, inl (AssertionError
                 (label +:+ " shape mismatch: " +:+ str m +:+ " vs " +:+ str n))).
Proof.
  intros Hload Hn Hall Hex.
  destruct (assert_all_mismatch n _ Hall Hex)
    as (before & label & x & m & after & Heq & Hb & Hx & Hne & Hrun).
  exists before, label, x, m, after. repeat split; try assumption.
  apply convert_check_fails with a; [exact Hload|].
  rewrite check_rows_assert_all, Hn. cbn [rbind]. now rewrite Hrun.
Qed.

Lemma row_mismatch_rejected_witness :
  load_arrays (dict_of two_quats) = inr two_quats /\
  shape0 (means two_quats) = inr 1%nat /\
  Forall has_rows (row_checked two_quats) /\
  Exists (rows_differ 1) (row_checked two_quats) /\
  exists before label x m after,
    row_checked two_quats = before ++ (label, x) :: after /\
    Forall (fun c => shape0 c.2 = inr 1%nat) before /\
    shape0 x = inr m /\ m <> 1%nat /\
    convert_checkpoint_to_ply (dict_of two_quats) "out.ply" world0
    = (world0, inl (AssertionError
                      (label +:+ " shape mismatch: " +:+ str m +:+ " vs " +:+ str 1))).
Proof.
  assert (Hall : Forall has_rows (row_checked two_quats)).
  { repeat constructor; eexists; reflexivity. }
  assert (Hex : Exists (rows_differ 1) (row_checked two_quats)).
  { apply Exists_cons_tl, Exists_cons_hd. vm_compute. discriminate. }
  exact (conj eq_refl (conj eq_refl (conj Hall (conj Hex
    (row_mismatch_rejected (dict_of two_quats) two_quats 1 "out.ply" world0
       eq_refl eq_refl Hall Hex))))).
Defined.

(** The message of that run. *)
Example two_quats_message :
  convert_checkpoint_to_ply (dict_of two_quats) "out.ply" world0
  = (world0, inl (AssertionError "Quats shape mismatch: 2 vs 1")).
Proof. vm_compute. reflexivity. Qed.

(** ** Arrays with more columns than the layout *)

Lemma ensure_2d_table n w a : table n w a -> ensure_2d w a = inr a.
Proof. intros (c & Hs & _). unfold ensure_2d, ndim. now rewrite Hs. Qed.

Lemma load_arrays_wide d n a : wide_splatset d n a -> load_arrays d = inr a.
Proof.
  intros [Hm Ho Hq Hs H0 HN (Tm & To & Tq & Ts & T0 & TN)].
  unfold load_arrays, getitem. rewrite Hm, Ho, Hq, Hs, H0, HN. cbn [rbind].
  rewrite (ensure_2d_table n 3 _ Tm), (ensure_2d_table n 1 _ To),
    (ensure_2d_table n 4 _ Tq), (ensure_2d_table n 3 _ Ts),
    (ensure_2d_table n 3 _ T0), (ensure_2d_table n 45 _ TN).
  cbn [rbind]. now destruct a.
Qed.

Lemma row_bytes_same n w x y i js :
  same_columns n w x y -> (i < n)%nat -> Forall (fun j => (j < w)%nat) js ->
  row_bytes x i js = row_bytes y i js.
Proof.
  intros Hxy Hi Hjs. unfold row_bytes.
  induction Hjs as [|j js Hj _ IH]; cbn [flat_map]; [reflexivity|].
  now rewrite (Hxy i j Hi Hj), IH.
Qed.

Lemma record_bytes_same n a b i :
  same_fields n a b -> (i < n)%nat -> record_bytes a i = record_bytes b i.
Proof.
  intros (Hm & Ho & Hq & Hs & H0 & HN) Hi. unfold record_bytes.
  rewrite (row_bytes_same n 3 _ _ i _ Hm Hi) by (repeat constructor; lia).
  rewrite (row_bytes_same n 3 _ _ i _ H0 Hi) by (repeat constructor; lia).
  rewrite (row_bytes_same n 45 _ _ i _ HN Hi)
    by (apply Forall_forall; intros j Hj; apply elem_of_seq in Hj; lia).
  rewrite (row_bytes_same n 1 _ _ i _ Ho Hi) by (repeat constructor; lia).
  rewrite (row_bytes_same n 3 _ _ i _ Hs Hi) by (repeat constructor; lia).
  rewrite (row_bytes_same n 4 _ _ i _ Hq Hi) by (repeat constructor; lia).
  reflexivity.
Qed.

Lemma body_bytes_same n a b : same_fields n a b -> body_bytes a n = body_bytes b n.
Proof.
  intros Hab. unfold body_bytes.
  assert (Hrange : Forall (fun i => (i < n)%nat) (seq 0 n)).
  { apply Forall_forall. intros i Hi. apply elem_of_seq in Hi. lia. }
  induction Hrange as [|i range Hi _ IH]; cbn [flat_map]; [reflexivity|].
  now rewrite (record_bytes_same n a b i Hab Hi), IH.
Qed.

(** Proves that a sample dictionary is a set of wide arrays. *)
Ltac wide_sample :=
  split;
  [ reflexivity | reflexivity | reflexivity | reflexivity | reflexivity | reflexivity
  | repeat split ];
  (eexists; split; [reflexivity|]; split; [simpl; lia|];
   split; [reflexivity|apply fits_reads; repeat constructor]).

(** C10. When every array is 2-D with the vertex count as row count and at
    least as many columns as its field, the checks pass and the run
    succeeds; the record of a vertex is made of the first columns of each
    row only (3 of means, 3 of sh0, 45 of shN, 1 of opacities, 3 of scales,
    4 of quats), so the file is the same for any other such input with the
    same first columns. *)
Theorem extra_columns_ignored d n a path w :
  wide_splatset d n a ->
  let out := convert_checkpoint_to_ply d path w in
  check_rows a = inr n /\
  out.2 = inr tt /\
  files out.1 !! path = Some (header_bytes n ++ body_bytes a n) /\
  (forall d' a',
     wide_splatset d' n a' -> same_fields n a a' ->
     (convert_checkpoint_to_ply d' path w).2 = inr tt /\
     files (convert_checkpoint_to_ply d' path w).1 !! path = files out.1 !! path).
Proof.
  intros Hv. cbv zeta.
  pose proof (load_arrays_wide d n a Hv) as Hload.
  pose proof (check_rows_tables n a (ws_tables _ _ _ Hv)) as Hrows.
  rewrite (convert_loaded d path w a n Hload Hrows (ws_tables _ _ _ Hv)).
  unfold written. cbn [fst snd files]. rewrite lookup_insert_eq.
  split; [exact Hrows|]. split; [reflexivity|]. split; [reflexivity|].
  intros d' a' Hv' Hsame.
  rewrite (convert_loaded d' path w a' n (load_arrays_wide d' n a' Hv')
             (check_rows_tables n a' (ws_tables _ _ _ Hv')) (ws_tables _ _ _ Hv')).
  unfold written. cbn [fst snd files]. rewrite lookup_insert_eq.
  split; [reflexivity|]. now rewrite (body_bytes_same n a a' Hsame).
Qed.

Lemma extra_columns_ignored_witness :
  wide_splatset (dict_of five_means) 1 five_means /\
  let out := convert_checkpoint_to_ply (dict_of five_means) "out.ply" world0 in
  check_rows five_means = inr 1%nat /\
  out.2 = inr tt /\
  files out.1 !! "out.ply" = Some (header_bytes 1 ++ body_bytes five_means 1) /\
  (forall d' a',
     wide_splatset d' 1 a' -> same_fields 1 five_means a' ->
     (convert_checkpoint_to_ply d' "out.ply" world0).2 = inr tt /\
     files (convert_checkpoint_to_ply d' "out.ply" world0).1 !! "out.ply"
     = files out.1 !! "out.ply").
Proof.
  assert (Hv : wide_splatset (dict_of five_means) 1 five_means) by wide_sample.
  exact (conj Hv
    (extra_columns_ignored (dict_of five_means) 1 five_means "out.ply" world0 Hv)).
Defined.

(** The five-column means give the file of the one-vertex scene. *)
Example five_means_file :
  files (convert_checkpoint_to_ply (dict_of five_means) "out.ply" world0).1
    !! "out.ply"
  = Some (header_bytes 1 ++ one_vertex_body).
Proof. vm_compute. reflexivity. Qed.

(** ** Flat arrays and column widths *)

Lemma load_arrays_fields d a :
  load_arrays d = inr a ->
  Forall (fun c => exists x, d !! c.1.1 = Some x /\ ensure_2d c.1.2 x = inr c.2)
         (loaded_fields a).
Proof.
  unfold load_arrays, getitem. intros H.
  destruct (d !! "means") as [m|] eqn:Hm; [|discriminate].
  destruct (d !! "opacities") as [o|] eqn:Ho; [|discriminate].
  destruct (d !! "quats") as [q|] eqn:Hq; [|discriminate].
  destruct (d !! "scales") as [s|] eqn:Hs; [|discriminate].
  destruct (d !! "sh0") as [s0|] eqn:H0; [|discriminate].
  destruct (d !! "shN") as [sN|] eqn:HN; [|discriminate].
  cbn [rbind] in H.
  destruct (ensure_2d 3 m) as [|m'] eqn:Em; [discriminate|].
  destruct (ensure_2d 1 o) as [|o'] eqn:Eo; [discriminate|].
  destruct (ensure_2d 4 q) as [|q'] eqn:Eq; [discriminate|].
  destruct (ensure_2d 3 s) as [|s'] eqn:Es; [discriminate|].
  destruct (ensure_2d 3 s0) as [|s0'] eqn:E0; [discriminate|].
  destruct (ensure_2d 45 sN) as [|sN'] eqn:EN; [discriminate|].
  cbn [rbind] in H. injection H as <-.
  unfold loaded_fields. cbn [means opacities quats scales sh0 shN].
  repeat (constructor; [eexists; split; eassumption|]).
  constructor.
Qed.

Lemma assert_rows_inr label x n : assert_rows label x n = inr tt -> shape0 x = inr n.
Proof.
  unfold assert_rows. destruct (shape0 x) as [|m]; [discriminate|]. cbn [rbind].
  destruct (Nat.eqb_spec m n) as [->|]; [reflexivity|discriminate].
Qed.

Lemma check_rows_inr a n :
  check_rows a = inr n ->
  Forall (fun c => shape0 c.2 = inr n) (loaded_fields a).
Proof.
  unfold check_rows. destruct (shape0 (means a)) as [|k] eqn:Hm; [discriminate|].
  cbn [rbind].
  destruct (assert_rows "Opacities" _ k) as [|[]] eqn:Ho; [discriminate|].
  destruct (assert_rows "Quats" _ k) as [|[]] eqn:Hq; [discriminate|].
  destruct (assert_rows "Scales" _ k) as [|[]] eqn:Hs; [discriminate|].
  destruct (assert_rows "SH0" _ k) as [|[]] eqn:H0; [discriminate|].
  destruct (assert_rows "SHN" _ k) as [|[]] eqn:HN; [discriminate|].
  cbn [rbind]. intros [= <-].
  repeat constructor; cbn [snd]; eauto using assert_rows_inr.
Qed.

(** A flat array after [ensure_2d]. *)
Lemma ensure_2d_flat w x len :
  shape x = [len] ->
  ensure_2d w x
  = if (len mod w =? 0)%nat then inr (Ndarray [(len / w)%nat; w] (data x))
    else inl (ValueError len w).
Proof.
  intros Hs. unfold ensure_2d, ndim, reshape_rows, size. rewrite Hs. simpl.
  now rewrite Nat.mul_1_r.
Qed.

(** Finds an element in a list written out. *)
Ltac in_list :=
  first [ apply list_elem_of_here | apply list_elem_of_further; in_list ].

(** Takes from [others_valid] the array of each key but the flat one. *)
Ltac other_array H k wk :=
  try (let y := fresh "y" in
       let L := fresh "L" in
       let C := fresh "C" in
       destruct (H k wk ltac:(unfold field_widths; in_list) ltac:(discriminate))
         as (y & L & C)).

Ltac other_arrays H :=
  other_array H "means" 3%nat; other_array H "opacities" 1%nat;
  other_array H "quats" 4%nat; other_array H "scales" 3%nat;
  other_array H "sh0" 3%nat; other_array H "shN" 45%nat.

(** Rewrites the lookups and the reshapes of [load_arrays]. *)
Ltac run_load d :=
  unfold load_arrays, getitem;
  repeat match goal with
         | L : d !! _ = Some _ |- _ => rewrite L; clear L
         end;
  cbn [rbind];
  repeat match goal with
         | E : ensure_2d _ _ = _ |- _ => rewrite E; clear E; cbn [rbind]
         end.

(** A flat array of one of the five checked fields, the other arrays being
    valid for [n] vertices. *)
Lemma flat_rejected d n key width label x len path w :
  (key, width, label) ∈ checked_fields ->
  d !! key = Some x -> shape x = [len] ->
  others_valid d n key ->
  len <> (n * width)%nat ->
  convert_checkpoint_to_ply d path w = (w, inl (flat_error label len width n)).
Proof.
  intros Hin Hx Hs Hothers Hne. unfold checked_fields in Hin.
  assert (Hw : (0 < width)%nat).
  { repeat (apply elem_of_cons in Hin as [Hin|Hin];
            [injection Hin as -> -> ->; lia|]).
    now apply elem_of_nil in Hin. }
  pose proof (ensure_2d_flat width x len Hs) as Ex.
  unfold flat_error.
  destruct (Nat.eqb_spec (len mod width) 0) as [Hmod|Hmod].
  - assert (Hrows : ((len / width =? n) = false)%nat).
    { apply Nat.eqb_neq. intros <-.
      pose proof (Nat.div_mod_eq len width). nia. }
    repeat (apply elem_of_cons in Hin as [Hin|Hin];
            [injection Hin as -> -> ->|]);
      [ | | | | | now apply elem_of_nil in Hin ];
      other_arrays Hothers;
      repeat match goal with
             | C : canonical n ?wk ?y |- _ =>
                 destruct (ensure_2d_canonical n wk y ltac:(lia) C) as [? _];
                 clear C
             end;
      (eapply convert_check_fails; [run_load d; reflexivity|]);
      unfold check_rows, assert_rows, shape0;
      cbn [means opacities quats scales sh0 shN shape as_2d rbind];
      rewrite ?Nat.eqb_refl; cbn [rbind];
      rewrite Hrows; reflexivity.
  - repeat (apply elem_of_cons in Hin as [Hin|Hin];
            [injection Hin as -> -> ->|]);
      [ | | | | | now apply elem_of_nil in Hin ];
      other_arrays Hothers;
      repeat match goal with
             | C : canonical n ?wk ?y |- _ =>
                 destruct (ensure_2d_canonical n wk y ltac:(lia) C) as [? _];
                 clear C
             end;
      apply convert_load_fails; run_load d; reflexivity.
Qed.

(** A flat means array whose length is not a multiple of 3. *)
Lemma flat_means_rejected d m len path w :
  Forall (fun k => is_Some (d !! k)) required_keys ->
  d !! "means" = Some m -> shape m = [len] -> (len mod 3)%nat <> 0%nat ->
  convert_checkpoint_to_ply d path w = (w, inl (ValueError len 3)).
Proof.
  intros Hkeys Hm Hs Hmod. apply convert_load_fails.
  pose proof (ensure_2d_flat 3 m len Hs) as Em.
  apply Nat.eqb_neq in Hmod. rewrite Hmod in Em.
  unfold required_keys in Hkeys.
  apply Forall_cons_1 in Hkeys as [_ Hkeys].
  repeat (apply Forall_cons_1 in Hkeys as [[? ?] Hkeys]).
  run_load d. reflexivity.
Qed.

(** A flat array reshapes to [n] rows exactly when it holds [n * width]
    elements. *)
Lemma flat_reshape_iff width x len n :
  (0 < width)%nat -> shape x = [len] ->
  (exists x', ensure_2d width x = inr x' /\ shape x' = [n; width] /\
              data x' = data x)
  <-> len = (n * width)%nat.
Proof.
  intros Hw Hs. rewrite (ensure_2d_flat width x len Hs). split.
  - intros (x' & Hx' & Hsx' & _).
    destruct (Nat.eqb_spec (len mod width) 0) as [Hmod|]; [|discriminate].
    injection Hx' as <-. injection Hsx' as <-.
    pose proof (Nat.div_mod_eq len width). nia.
  - intros ->. rewrite Nat.Div0.mod_mul, Nat.div_mul by lia.
    eexists. repeat split.
Qed.

(** C5, as the code has it.  The widths are enforced on flat arrays: a
    flat array of [len] elements of a field of width [width] is reshaped to
    [n] rows of that width exactly when [len = n * width].  When the other
    five arrays are valid for [n] vertices and [len] is not [n * width],
    the run stops before the file is opened, the world left as it was, on
    the ValueError of the reshape when the width does not divide [len] and
    else on the assertion error naming the field, [len / width] and [n]:
    for flat opacities of [n + 1] elements, on [Opacities shape mismatch:
    n+1 vs n].  When the six keys are present, a flat means whose length
    is no multiple of 3 stops the run on its ValueError.  (The column
    count of a 2-D array is not checked.) *)
Theorem flat_width_enforced d n key width label x len path w :
  (key, width, label) ∈ checked_fields ->
  d !! key = Some x ->
  shape x = [len] ->
  others_valid d n key ->
  len <> (n * width)%nat ->
  (forall m,
     (exists x', ensure_2d width x = inr x' /\ shape x' = [m; width] /\
                 data x' = data x)
     <-> len = (m * width)%nat) /\
  convert_checkpoint_to_ply d path w
  = (w, inl (if (len mod width =? 0)%nat
             then AssertionError
                    (label +:+ " shape mismatch: " +:+ str (len / width)
                       +:+ " vs " +:+ str n)
             else ValueError len width)) /\
  (forall d' o,
     d' !! "opacities" = Some o -> shape o = [S n] -> others_valid d' n "opacities" ->
     convert_checkpoint_to_ply d' path w
     = (w, inl (AssertionError
                  ("Opacities shape mismatch: " +:+ str (S n) +:+ " vs " +:+ str n)))) /\
  (forall d' m lenm,
     Forall (fun k => is_Some (d' !! k)) required_keys ->
     d' !! "means" = Some m -> shape m = [lenm] ->
     ((exists m', ensure_2d 3 m = inr m' /\ shape m' = [(lenm / 3)%nat; 3%nat])
      <-> (lenm mod 3)%nat = 0%nat) /\
     ((lenm mod 3)%nat <> 0%nat ->
      convert_checkpoint_to_ply d' path w = (w, inl (ValueError lenm 3)))).
Proof.
  intros Hin Hx Hs Hothers Hne.
  assert (Hw : (0 < width)%nat).
  { unfold checked_fields in Hin.
    repeat (apply elem_of_cons in Hin as [Hin|Hin];
            [injection Hin as -> -> ->; lia|]).
    now apply elem_of_nil in Hin. }
  split; [intros m; now apply flat_reshape_iff|].
  split; [exact (flat_rejected d n key width label x len path w Hin Hx Hs Hothers Hne)|].
  split.
  - intros d' o Ho Hso Hoth.
    rewrite (flat_rejected d' n "opacities" 1 "Opacities" o (S n) path w)
      by (first [unfold checked_fields; in_list | assumption | lia]).
    unfold flat_error. now rewrite Nat.mod_1_r, Nat.div_1_r.
  - intros d' m lenm Hkeys Hm Hsm. split.
    + rewrite (ensure_2d_flat 3 m lenm Hsm).
      destruct (Nat.eqb_spec (lenm mod 3) 0) as [Hmod|Hmod]; split.
      * intros _. exact Hmod.
      * intros _. eexists. split; reflexivity.
      * intros (m' & H & _). discriminate.
      * intros H. contradiction.
    + intros Hmod. exact (flat_means_rejected d' m lenm path w Hkeys Hm Hsm Hmod).
Qed.

Lemma flat_width_enforced_witness :
  ("opacities", 1%nat, "Opacities") ∈ checked_fields /\
  dict_of flat_opacities !! "opacities" = Some (opacities flat_opacities) /\
  shape (opacities flat_opacities) = [2%nat] /\
  others_valid (dict_of flat_opacities) 1 "opacities" /\
  2%nat <> (1 * 1)%nat /\
  convert_checkpoint_to_ply (dict_of flat_opacities) "out.ply" world0
  = (world0, inl (AssertionError "Opacities shape mismatch: 2 vs 1")).
Proof.
  assert (Hkey : ("opacities", 1%nat, "Opacities") ∈ checked_fields)
    by (unfold checked_fields; in_list).
  assert (Hoth : others_valid (dict_of flat_opacities) 1 "opacities").
  { intros k wk Hk Hne. unfold field_widths in Hk.
    repeat (apply elem_of_cons in Hk as [Hk|Hk];
            [injection Hk as -> ->;
             first [ congruence
                   | eexists; split; [reflexivity|];
                     split; [left; reflexivity|];
                     split; [reflexivity|repeat constructor] ]|]).
    now apply elem_of_nil in Hk. }
  assert (Hne : 2%nat <> (1 * 1)%nat) by lia.
  exact (conj Hkey (conj eq_refl (conj eq_refl (conj Hoth (conj Hne
    (proj1 (proj2
       (flat_width_enforced (dict_of flat_opacities) 1 "opacities" 1 "Opacities"
          (opacities flat_opacities) 2 "out.ply" world0
          Hkey eq_refl eq_refl Hoth Hne)))))))).
Defined.

(** The flat opacities of length N + 1 fail the row check of opacities. *)
Example flat_opacities_message :
  convert_checkpoint_to_ply (dict_of flat_opacities) "out.ply" world0
  = (world0, inl (AssertionError "Opacities shape mismatch: 2 vs 1")).
Proof. vm_compute. reflexivity. Qed.

(** C5, as the claim has it, fails on 2-D arrays: with means of shape
    (1, 2) the row checks pass, the file is created and the header written,
    and the loop then stops on [means[0, 2]]. *)
Lemma two_means_partial_file :
  shape (means two_means) = [1%nat; 2%nat] /\
  (convert_checkpoint_to_ply (dict_of two_means) "out.ply" world0).2
  = inl IndexError /\
  files (convert_checkpoint_to_ply (dict_of two_means) "out.ply" world0).1
    !! "out.ply" = Some (header_bytes 1) /\
  ~ rejected_unwritten (dict_of two_means) "out.ply" world0.
Proof.
  split; [reflexivity|]. split; [vm_compute; reflexivity|].
  split; [vm_compute; reflexivity|].
  intros [e He].
  apply (f_equal (fun out => files out.1 !! "out.ply")) in He.
  vm_compute in He. discriminate.
Qed.

(** ** The presence check of [main] *)

(** A key that [extract_data_from_ckpt] reads is absent: the lookup raises
    before [main] reaches its presence check. *)
Lemma main_missing_read ckpt splats path w :
  ckpt !! "splats" = Some splats ->
  Exists (fun key => splats !! key = None) ["means"; "opacities"; "sh0"; "shN"] ->
  exists e, main ckpt path w = (w, inl e).
Proof.
  intros Hs Hex. unfold main, bind, lift.
  assert (H : exists e, extract_data_from_ckpt ckpt = inl e).
  { unfold extract_data_from_ckpt, getitem. rewrite Hs. cbn [rbind].
    destruct (splats !! "means") as [m|] eqn:Hm; [|eauto]. cbn [rbind].
    destruct (shape0 m) as [|n]; [eauto|]. cbn [rbind].
    destruct (splats !! "opacities") as [o|] eqn:Ho; [|eauto]. cbn [rbind].
    destruct (reshape_to n 1 o) as [|o']; [eauto|]. cbn [rbind].
    rewrite lookup_insert_ne by discriminate.
    destruct (splats !! "sh0") as [s|] eqn:H0; [|eauto]. cbn [rbind].
    destruct (reshape_to n 3 s) as [|s']; [eauto|]. cbn [rbind].
    rewrite !lookup_insert_ne by discriminate.
    destruct (splats !! "shN") as [r|] eqn:HN; [|eauto]. cbn [rbind].
    exfalso. rewrite !Exists_cons, Exists_nil in Hex.
    destruct Hex as [H|[H|[H|[H|[]]]]]; congruence. }
  destruct H as [e ->]. eauto.
Qed.

(** Only quats or scales absent: the presence check reports the missing
    keys and [main] returns without opening the file. *)
Example main_missing_quats :
  main (ckpt_of (delete "quats" (dict_of one_vertex))) "out.ply" world0
  = (World ∅ [MissingKeys ["quats"]], inr tt).
Proof. vm_compute. reflexivity. Qed.

(** C6 fails on the code: with opacities absent, [main] stops on KeyError
    inside [extract_data_from_ckpt]; the presence check is not reached and
    no list of missing keys is printed.  No file is written. *)
Theorem missing_opacities_keyerror :
  not_in (delete "opacities" (dict_of one_vertex)) "opacities" = true /\
  main (ckpt_of (delete "opacities" (dict_of one_vertex))) "out.ply" world0
  = (world0, inl (KeyError "opacities")).
Proof. split; vm_compute; reflexivity. Qed.

(** * More of the script *)

(** ** What the loop writes and raises *)

Lemma pack_item_cases v :
  match pack_item v with
  | inr bs => length bs = 4%nat
  | inl e => loop_error e
  end.
Proof.
  destruct v as [x|]; simpl; [|right; left; reflexivity].
  unfold pack_f. destruct (overflows x); [right; right|]; reflexivity.
Qed.

Lemma pack_items_cases vs :
  match pack_items vs with
  | inr bs => length bs = (4 * length vs)%nat
  | inl e => loop_error e
  end.
Proof.
  induction vs as [|v vs IH]; cbn [pack_items length]; [reflexivity|].
  pose proof (pack_item_cases v) as Hv.
  destruct (pack_item v) as [e|b]; cbn [rbind]; [exact Hv|].
  destruct (pack_items vs) as [e|bs]; cbn [rbind]; [exact IH|].
  rewrite length_app. lia.
Qed.

Lemma index2_cases a i j :
  match index2 a i j with
  | inr _ => True
  | inl e => e = IndexError
  end.
Proof.
  unfold index2. destruct (shape a) as [|r [|c rest]]; try reflexivity.
  destruct ((i <? r)%nat && (j <? c)%nat); [|reflexivity].
  destruct rest; [|exact I].
  destruct (data a !! (i * c + j)%nat); [exact I|reflexivity].
Qed.

Lemma eval_args_cases a i js :
  match eval_args (map (index2 a i) js) with
  | inr vs => length vs = length js
  | inl e => e = IndexError
  end.
Proof.
  induction js as [|j js IH]; cbn [map eval_args length]; [reflexivity|].
  pose proof (index2_cases a i j) as Hj.
  destruct (index2 a i j) as [e|v]; cbn [rbind]; [exact Hj|].
  destruct (eval_args (map (index2 a i) js)) as [e|vs]; cbn [rbind]; [exact IH|].
  cbn [length]. now rewrite IH.
Qed.

Lemma pack_row_cases a i js :
  match pack_row a i js with
  | inr bs => length bs = (4 * length js)%nat
  | inl e => loop_error e
  end.
Proof.
  unfold pack_row. pose proof (eval_args_cases a i js) as Hargs.
  destruct (eval_args (map (index2 a i) js)) as [e|vs]; cbn [rbind].
  - left. exact Hargs.
  - pose proof (pack_items_cases vs) as Hvs. rewrite Hargs in Hvs. exact Hvs.
Qed.

Section Emits.

Lemma emits_packed (r : res (list byte)) len :
  (0 < len)%nat ->
  match r with
  | inr bs => length bs = len
  | inl e => loop_error e
  end ->
  emits len (fun f => do bs <- lift r; write f bs).
Proof.
  intros Hlen Hr. destruct r as [e|bs].
  - exists [], (inl e). split; [|split; [exact Hlen|exact Hr]].
    intros f m out acc. unfold bind, lift. now rewrite app_nil_r.
  - exists bs, (inr tt). split; [|exact Hr].
    intros f m out acc. unfold bind, lift. apply write_at.
Qed.

Lemma emits_then {B} len1 len2 (p : string -> io unit) (q : string -> io B) :
  emits len1 p -> emits len2 q -> emits (len1 + len2) (fun f => p f ;; q f).
Proof.
  intros (more1 & r1 & Hp & H1) (more2 & r2 & Hq & H2).
  destruct r1 as [e|[]].
  - exists more1, (inl e). split.
    + intros f m out acc. unfold bind. now rewrite Hp.
    + destruct H1. split; [lia|assumption].
  - exists (more1 ++ more2), r2. split.
    + intros f m out acc. unfold bind. now rewrite Hp, Hq, app_assoc.
    + rewrite length_app. destruct r2 as [e|b]; [destruct H2; split|]; (lia || assumption).
Qed.

Lemma emits_for_each len (range : list nat) (body : string -> nat -> io unit) :
  (forall i, emits len (fun f => body f i)) ->
  emits (length range * len) (fun f => for_each range (body f)).
Proof.
  intros Hbody. induction range as [|i range IH]; cbn [for_each length].
  - exists [], (inr tt). split; [|reflexivity].
    intros f m out acc. unfold ret. now rewrite app_nil_r.
  - change (S (length range) * len)%nat with (len + length range * len)%nat.
    apply (emits_then len (length range * len) (fun f => body f i)
             (fun f => for_each range (body f))); [apply Hbody|exact IH].
Qed.

Lemma emits_write_vertex a i : emits 248 (fun f => write_vertex f a i).
Proof.
  unfold write_vertex, for_range.
  change 248%nat with (12 + (12 + (12 + (45 * 4 + (4 + (12 + 16))))))%nat.
  apply emits_then; [apply emits_packed; [lia|apply (pack_row_cases _ i [_; _; _])]|].
  apply emits_then; [apply emits_packed; [lia|reflexivity]|].
  apply emits_then; [apply emits_packed; [lia|apply (pack_row_cases _ i [_; _; _])]|].
  apply emits_then.
  { apply (emits_for_each 4 (seq 0 45)
             (fun f j => do bs <- lift (pack_row (shN a) i [j]); write f bs)).
    intros j. apply emits_packed; [lia|apply (pack_row_cases _ i [j])]. }
  apply emits_then; [apply emits_packed; [lia|apply (pack_row_cases _ i [_])]|].
  apply emits_then; [apply emits_packed; [lia|apply (pack_row_cases _ i [_; _; _])]|].
  apply emits_packed; [lia|apply (pack_row_cases _ i [_; _; _; _])].
Qed.

Lemma emits_loop a n :
  emits (n * 248) (fun f => for_range n (write_vertex f a)).
Proof.
  unfold for_range.
  pose proof (emits_for_each 248 (seq 0 n) (fun f => write_vertex f a)
                (emits_write_vertex a)) as H.
  rewrite length_seq in H. exact H.
Qed.

End Emits.

(** A run whose row checks pass, with the number of bytes the loop wrote. *)
Lemma run_emits d a n :
  load_arrays d = inr a -> check_rows a = inr n ->
  exists more r,
    (forall path w,
       convert_checkpoint_to_ply d path w
       = (World (<[path := header_bytes n ++ more]> (files w))
                (stdout w ++ Converting n
                   :: closing_lines path (header_bytes n ++ more) r), r)) /\
    match r with
    | inr _ => length more = (n * 248)%nat
    | inl e => (length more < n * 248)%nat /\ loop_error e
    end.
Proof.
  intros Hload Hrows.
  destruct (emits_loop a n) as (more & r & Hloop & Hlen).
  exists more, r. split; [|exact Hlen]. intros path w.
  unfold convert_checkpoint_to_ply.
  unfold bind at 1. unfold lift at 1. rewrite Hload.
  unfold bind at 1. unfold lift at 1. rewrite Hrows.
  unfold bind at 1. unfold print at 1. cbn [files stdout].
  unfold bind at 1. unfold bind at 1. unfold open_wb at 1. cbn [files stdout].
  fold (writing path (files w) (stdout w ++ [Converting n]) []).
  erewrite seq_step by apply write_packed, encode_header. cbn [app].
  rewrite Hloop.
  destruct r as [e|[]]; unfold writing, closing_lines.
  - reflexivity.
  - unfold bind, print, st_size. cbn [files stdout].
    rewrite lookup_insert_eq. now rewrite <- !app_assoc.
Qed.

(** X1. Once the row checks have passed, the size of the file tells whether
    the loop was completed: a run that returns leaves the header and
    exactly [n * 248] more bytes and has printed the three lines; a run
    that raises IndexError, a struct error or OverflowError leaves the
    header and fewer than [n * 248] more bytes, and has printed only the
    first line. *)
Theorem file_size_tells_success d a n path w :
  load_arrays d = inr a -> check_rows a = inr n ->
  match (convert_checkpoint_to_ply d path w).2 with
  | inr _ =>
      exists bs,
        files (convert_checkpoint_to_ply d path w).1 !! path = Some bs /\
        length bs = (length (header_bytes n) + n * 248)%nat /\
        stdout (convert_checkpoint_to_ply d path w).1
        = stdout w ++ [Converting n; Converted path; FileSize (length bs)]
  | inl e =>
      loop_error e ->
      exists bs,
        files (convert_checkpoint_to_ply d path w).1 !! path = Some bs /\
        (length (header_bytes n) <= length bs
         < length (header_bytes n) + n * 248)%nat /\
        stdout (convert_checkpoint_to_ply d path w).1 = stdout w ++ [Converting n]
  end.
Proof.
  intros Hload Hrows.
  destruct (run_emits d a n Hload Hrows) as (more & r & Hrun & Hlen).
  rewrite Hrun. cbn [fst snd files stdout].
  destruct r as [e|[]]; cbn [closing_lines].
  - intros _. destruct Hlen as [Hlt _]. exists (header_bytes n ++ more).
    rewrite lookup_insert_eq, length_app. repeat split; lia.
  - exists (header_bytes n ++ more).
    rewrite lookup_insert_eq, !length_app. repeat split; lia.
Qed.

Lemma file_size_tells_success_witness :
  load_arrays (dict_of two_means) = inr two_means /\
  check_rows two_means = inr 1%nat /\
  match (convert_checkpoint_to_ply (dict_of two_means) "out.ply" world0).2 with
  | inr _ =>
      exists bs,
        files (convert_checkpoint_to_ply (dict_of two_means) "out.ply" world0).1
          !! "out.ply" = Some bs /\
        length bs = (length (header_bytes 1) + 1 * 248)%nat /\
        stdout (convert_checkpoint_to_ply (dict_of two_means) "out.ply" world0).1
        = stdout world0 ++ [Converting 1; Converted "out.ply"; FileSize (length bs)]
  | inl e =>
      loop_error e ->
      exists bs,
        files (convert_checkpoint_to_ply (dict_of two_means) "out.ply" world0).1
          !! "out.ply" = Some bs /\
        (length (header_bytes 1) <= length bs
         < length (header_bytes 1) + 1 * 248)%nat /\
        stdout (convert_checkpoint_to_ply (dict_of two_means) "out.ply" world0).1
        = stdout world0 ++ [Converting 1]
  end.
Proof.
  exact (conj eq_refl (conj eq_refl
    (file_size_tells_success (dict_of two_means) two_means 1 "out.ply" world0
       eq_refl eq_refl))).
Defined.

(** ** The exceptions of the checks *)

Lemma ensure_2d_error w x e :
  ensure_2d w x = inl e ->
  ndim x = 1%nat /\ (size x mod w)%nat <> 0%nat /\ e = ValueError (size x) w.
Proof.
  unfold ensure_2d, reshape_rows.
  destruct (Nat.eqb_spec (ndim x) 1); [|discriminate].
  destruct (Nat.eqb_spec (size x mod w) 0); [discriminate|].
  intros [= <-]. auto.
Qed.

(** What [load_arrays] raises: KeyError on the first absent key, else
    ValueError on the first flat array its width does not divide. *)
Lemma load_arrays_error d e :
  load_arrays d = inl e ->
  (exists key, key ∈ required_keys /\ d !! key = None /\ e = KeyError key) \/
  (exists key width x,
     (key, width) ∈ field_widths /\ d !! key = Some x /\ ndim x = 1%nat /\
     (size x mod width)%nat <> 0%nat /\ e = ValueError (size x) width).
Proof.
  unfold load_arrays, getitem, required_keys, field_widths.
  destruct (d !! "means") as [m|] eqn:Hm; cbn [rbind];
    [|intros [= <-]; left; exists "means"; split; [in_list|auto]].
  destruct (d !! "opacities") as [o|] eqn:Ho; cbn [rbind];
    [|intros [= <-]; left; exists "opacities"; split; [in_list|auto]].
  destruct (d !! "quats") as [q|] eqn:Hq; cbn [rbind];
    [|intros [= <-]; left; exists "quats"; split; [in_list|auto]].
  destruct (d !! "scales") as [s|] eqn:Hs; cbn [rbind];
    [|intros [= <-]; left; exists "scales"; split; [in_list|auto]].
  destruct (d !! "sh0") as [s0|] eqn:H0; cbn [rbind];
    [|intros [= <-]; left; exists "sh0"; split; [in_list|auto]].
  destruct (d !! "shN") as [sN|] eqn:HN; cbn [rbind];
    [|intros [= <-]; left; exists "shN"; split; [in_list|auto]].
  destruct (ensure_2d 3 m) as [e1|m'] eqn:Em; cbn [rbind].
  { intros [= <-]. right. destruct (ensure_2d_error _ _ _ Em) as (? & ? & ?).
    exists "means", 3%nat, m. split; [in_list|auto]. }
  destruct (ensure_2d 1 o) as [e1|o'] eqn:Eo; cbn [rbind].
  { intros [= <-]. right. destruct (ensure_2d_error _ _ _ Eo) as (? & ? & ?).
    exists "opacities", 1%nat, o. split; [in_list|auto]. }
  destruct (ensure_2d 4 q) as [e1|q'] eqn:Eq; cbn [rbind].
  { intros [= <-]. right. destruct (ensure_2d_error _ _ _ Eq) as (? & ? & ?).
    exists "quats", 4%nat, q. split; [in_list|auto]. }
  destruct (ensure_2d 3 s) as [e1|s'] eqn:Es; cbn [rbind].
  { intros [= <-]. right. destruct (ensure_2d_error _ _ _ Es) as (? & ? & ?).
    exists "scales", 3%nat, s. split; [in_list|auto]. }
  destruct (ensure_2d 3 s0) as [e1|s0'] eqn:E0; cbn [rbind].
  { intros [= <-]. right. destruct (ensure_2d_error _ _ _ E0) as (? & ? & ?).
    exists "sh0", 3%nat, s0. split; [in_list|auto]. }
  destruct (ensure_2d 45 sN) as [e1|sN'] eqn:EN; cbn [rbind].
  { intros [= <-]. right. destruct (ensure_2d_error _ _ _ EN) as (? & ? & ?).
    exists "shN", 45%nat, sN. split; [in_list|auto]. }
  discriminate.
Qed.

Lemma assert_rows_error label x n e :
  assert_rows label x n = inl e ->
  e = IndexError \/ exists msg, e = AssertionError msg.
Proof.
  unfold assert_rows, shape0. destruct (shape x) as [|r ?]; cbn [rbind].
  - intros [= <-]. now left.
  - destruct (r =? n)%nat; [discriminate|]. intros [= <-]. right. eauto.
Qed.

(** What [check_rows] raises: IndexError on an array without dimensions,
    else the assertion error. *)
Lemma check_rows_error a e :
  check_rows a = inl e -> e = IndexError \/ exists msg, e = AssertionError msg.
Proof.
  unfold check_rows. destruct (shape0 (means a)) as [e0|n] eqn:Hm; cbn [rbind].
  { intros [= <-]. left. unfold shape0 in Hm.
    destruct (shape (means a)); congruence. }
  repeat match goal with
         | |- context [assert_rows ?l ?x n] =>
             let H := fresh "H" in
             destruct (assert_rows l x n) as [?|[]] eqn:H; cbn [rbind];
             [intros [= <-]; exact (assert_rows_error _ _ _ _ H)|]
         end.
  discriminate.
Qed.

(** X2. The exception of a run tells how far it got.  A KeyError names a
    required key that is absent, and with it or with an assertion error the
    world is as it was before the run: nothing was printed and no file
    opened.  A struct error or an OverflowError is raised only after the
    header was written to the file. *)
Theorem exception_phases d path w e :
  (convert_checkpoint_to_ply d path w).2 = inl e ->
  match e with
  | KeyError key =>
      key ∈ required_keys /\ d !! key = None /\
      (convert_checkpoint_to_ply d path w).1 = w
  | AssertionError _ => (convert_checkpoint_to_ply d path w).1 = w
  | StructError | OverflowError =>
      exists n rest,
        files (convert_checkpoint_to_ply d path w).1 !! path
        = Some (header_bytes n ++ rest)
  | _ => True
  end.
Proof.
  destruct (load_arrays d) as [e0|a] eqn:Hload.
  { rewrite (convert_load_fails d e0 path w Hload). cbn [fst snd].
    intros [= <-].
    destruct (load_arrays_error d e0 Hload)
      as [(key & Hk & Hnone & ->)|(key & width & x & _ & _ & _ & Hmod & ->)];
      auto. }
  destruct (check_rows a) as [e0|n] eqn:Hrows.
  { rewrite (convert_check_fails d a e0 path w Hload Hrows). cbn [fst snd].
    intros [= <-].
    destruct (check_rows_error a e0 Hrows) as [ -> | [msg -> ] ]; auto. }
  destruct (run_emits d a n Hload Hrows) as (more & r & Hrun & Hlen).
  rewrite Hrun. cbn [fst snd files]. intros ->.
  destruct Hlen as [_ [ -> | [ -> | -> ] ] ]; [exact I| |];
    exists n, more; apply lookup_insert_eq.
Qed.

Lemma exception_phases_witness :
  (convert_checkpoint_to_ply (dict_of two_quats) "out.ply" world0).2
  = inl (AssertionError "Quats shape mismatch: 2 vs 1") /\
  (convert_checkpoint_to_ply (dict_of two_quats) "out.ply" world0).1 = world0.
Proof.
  assert (H : (convert_checkpoint_to_ply (dict_of two_quats) "out.ply" world0).2
              = inl (AssertionError "Quats shape mismatch: 2 vs 1"))
    by (vm_compute; reflexivity).
  exact (conj H (exception_phases (dict_of two_quats) "out.ply" world0 _ H)).
Defined.

(** ** Keys *)

Lemma load_arrays_missing d key before after :
  required_keys = before ++ key :: after ->
  Forall (fun k => is_Some (d !! k)) before ->
  d !! key = None ->
  load_arrays d = inl (KeyError key).
Proof.
  unfold required_keys. intros Heq Hall Hnone.
  unfold load_arrays, getitem.
  do 6 (destruct before as [|k before];
        [ injection Heq as <- _; rewrite Hnone; reflexivity
        | injection Heq as <- Heq;
          apply Forall_cons_1 in Hall as [[? ->] Hall]; cbn [rbind] ]).
  destruct before; discriminate.
Qed.

(** X3. A dictionary without one of the six keys is rejected with the
    KeyError of the first absent key, in the order means, opacities, quats,
    scales, sh0, shN, whatever the shapes of the arrays it holds; the world
    is left as it was. *)
Theorem first_missing_key d key before after path w :
  required_keys = before ++ key :: after ->
  Forall (fun k => is_Some (d !! k)) before ->
  d !! key = None ->
  convert_checkpoint_to_ply d path w = (w, inl (KeyError key)).
Proof.
  intros Heq Hall Hnone. apply convert_load_fails.
  exact (load_arrays_missing d key before after Heq Hall Hnone).
Qed.

Lemma first_missing_key_witness :
  required_keys = ["means"; "opacities"] ++ "quats" :: ["scales"; "sh0"; "shN"] /\
  Forall (fun k => is_Some (delete "quats" (dict_of flat_opacities) !! k))
         ["means"; "opacities"] /\
  delete "quats" (dict_of flat_opacities) !! "quats" = None /\
  convert_checkpoint_to_ply (delete "quats" (dict_of flat_opacities)) "out.ply" world0
  = (world0, inl (KeyError "quats")).
Proof.
  assert (Hall : Forall (fun k => is_Some (delete "quats" (dict_of flat_opacities) !! k))
                        ["means"; "opacities"]).
  { repeat constructor; eexists; reflexivity. }
  exact (conj eq_refl (conj Hall (conj eq_refl
    (first_missing_key (delete "quats" (dict_of flat_opacities)) "quats"
       ["means"; "opacities"] ["scales"; "sh0"; "shN"] "out.ply" world0
       eq_refl Hall eq_refl)))).
Defined.

Lemma load_arrays_same_keys d d' :
  Forall (fun k => d !! k = d' !! k) required_keys ->
  load_arrays d = load_arrays d'.
Proof.
  unfold required_keys. intros H.
  repeat (apply Forall_cons_1 in H as [? H]).
  unfold load_arrays, getitem.
  repeat match goal with
         | E : d !! _ = d' !! _ |- _ => rewrite E; clear E
         end.
  reflexivity.
Qed.

(** X4. Only the six keys are read: two dictionaries that agree on them,
    whatever else they hold, give the same run. *)
Theorem other_keys_ignored d d' path w :
  Forall (fun k => d !! k = d' !! k) required_keys ->
  convert_checkpoint_to_ply d path w = convert_checkpoint_to_ply d' path w.
Proof.
  intros H. unfold convert_checkpoint_to_ply.
  now rewrite (load_arrays_same_keys d d' H).
Qed.

Lemma other_keys_ignored_witness :
  Forall (fun k => dict_of one_vertex !! k
                   = <["step" := no_rows 1]> (dict_of one_vertex) !! k)
         required_keys /\
  convert_checkpoint_to_ply (dict_of one_vertex) "out.ply" world0
  = convert_checkpoint_to_ply (<["step" := no_rows 1]> (dict_of one_vertex))
      "out.ply" world0.
Proof.
  assert (H : Forall (fun k => dict_of one_vertex !! k
                               = <["step" := no_rows 1]> (dict_of one_vertex) !! k)
                     required_keys).
  { repeat constructor. }
  exact (conj H (other_keys_ignored _ _ "out.ply" world0 H)).
Defined.

(** ** What a run leaves alone *)

Lemma convert_frame d path w p :
  p <> path -> files (convert_checkpoint_to_ply d path w).1 !! p = files w !! p.
Proof.
  intros Hp.
  destruct (load_arrays d) as [e|a] eqn:Hload.
  { now rewrite (convert_load_fails d e path w Hload). }
  destruct (check_rows a) as [e|n] eqn:Hrows.
  { now rewrite (convert_check_fails d a e path w Hload Hrows). }
  destruct (run_after_checks d a n Hload Hrows) as (more & r & Hrun).
  rewrite Hrun. cbn [fst files]. apply lookup_insert_ne. congruence.
Qed.

(** X5. A run writes to the output path only and only adds lines to the
    output: every other file is as it was, whether the run returns or
    raises. *)
Theorem only_output_path_written d path w p :
  p <> path ->
  files (convert_checkpoint_to_ply d path w).1 !! p = files w !! p /\
  exists lines, stdout (convert_checkpoint_to_ply d path w).1 = stdout w ++ lines.
Proof.
  intros Hp. split; [now apply convert_frame|].
  destruct (load_arrays d) as [e|a] eqn:Hload.
  { rewrite (convert_load_fails d e path w Hload). cbn [fst].
    exists []. now rewrite app_nil_r. }
  destruct (check_rows a) as [e|n] eqn:Hrows.
  { rewrite (convert_check_fails d a e path w Hload Hrows). cbn [fst].
    exists []. now rewrite app_nil_r. }
  destruct (run_after_checks d a n Hload Hrows) as (more & r & Hrun).
  rewrite Hrun. cbn [fst stdout]. eauto.
Qed.

Lemma only_output_path_written_witness :
  "other.ply" <> "out.ply" /\
  files (convert_checkpoint_to_ply (dict_of one_vertex) "out.ply"
           (World {["other.ply" := [x00]]} [])).1 !! "other.ply"
  = Some [x00].
Proof.
  assert (H : "other.ply" <> "out.ply") by discriminate.
  exact (conj H (proj1 (only_output_path_written (dict_of one_vertex) "out.ply"
                          (World {["other.ply" := [x00]]} []) "other.ply" H))).
Defined.

(** ** Where a value lies in the file *)

Lemma row_bytes_values a i js :
  row_bytes a i js = flat_map f32_bytes (map (elt a i) js).
Proof.
  unfold row_bytes. induction js as [|j js IH]; cbn [flat_map map]; [reflexivity|].
  now rewrite IH.
Qed.

Lemma record_bytes_values a i :
  record_bytes a i = flat_map f32_bytes (record_values a i).
Proof.
  unfold record_bytes, record_values.
  rewrite !flat_map_app, !row_bytes_values. reflexivity.
Qed.

Lemma length_record_values a i : length (record_values a i) = 62%nat.
Proof.
  unfold record_values. rewrite !length_app, !length_map, length_seq. reflexivity.
Qed.

Lemma float_at (vs : list pyfloat) k v rest :
  vs !! k = Some v ->
  take 4 (drop (4 * k) (flat_map f32_bytes vs ++ rest)) = f32_bytes v.
Proof.
  revert k. induction vs as [|x vs IH]; intros k Hk; [discriminate|].
  destruct k as [|k].
  - injection Hk as ->. reflexivity.
  - cbn [flat_map]. rewrite <- app_assoc.
    replace (4 * S k)%nat with (length (f32_bytes x) + 4 * k)%nat
      by (rewrite length_f32_bytes; lia).
    rewrite drop_app_add. apply IH. exact Hk.
Qed.

(** X6. In the file of a valid run there is no padding: float [k] of
    vertex [i], counting the 62 values of a record in the order position,
    normal, sh0, shN, opacity, scale, rotation, is the four bytes at offset
    [i * 248 + 4 * k] of the body. *)
Theorem value_offset d n a path w i k v :
  valid_splatset d n a ->
  (i < n)%nat ->
  record_values (reshaped n a) i !! k = Some v ->
  exists body,
    files (convert_checkpoint_to_ply d path w).1 !! path
    = Some (header_bytes n ++ body) /\
    take 4 (drop (i * 248 + 4 * k) body) = f32_bytes v.
Proof.
  intros Hv Hi Hk. exists (body_bytes (reshaped n a) n).
  rewrite (convert_valid d n a path w Hv). unfold written. cbn [fst files].
  rewrite lookup_insert_eq. split; [reflexivity|].
  destruct (body_from (reshaped n a) n i Hi) as [rest Hrest].
  rewrite <- drop_drop, Hrest, record_bytes_values.
  now apply float_at.
Qed.

Lemma value_offset_witness :
  valid_splatset (dict_of one_vertex) 1 one_vertex /\
  (0 < 1)%nat /\
  record_values (reshaped 1 one_vertex) 0 !! 54%nat = Some (lit 1 2) /\
  exists body,
    files (convert_checkpoint_to_ply (dict_of one_vertex) "out.ply" world0).1
      !! "out.ply" = Some (header_bytes 1 ++ body) /\
    take 4 (drop (0 * 248 + 4 * 54) body) = f32_bytes (lit 1 2).
Proof.
  assert (Hv : valid_splatset (dict_of one_vertex) 1 one_vertex) by valid_sample.
  assert (Hi : (0 < 1)%nat) by lia.
  exact (conj Hv (conj Hi (conj eq_refl
    (value_offset (dict_of one_vertex) 1 one_vertex "out.ply" world0 0 54
       (lit 1 2) Hv Hi eq_refl)))).
Defined.

(** ** The size of the header and what it records *)

Lemma length_bytes_of_string s :
  length (String.list_byte_of_string s) = String.length s.
Proof.
  unfold String.list_byte_of_string.
  rewrite length_map. induction s as [|c s IH]; simpl; congruence.
Qed.

Lemma length_append_string s1 s2 :
  String.length (s1 +:+ s2) = (String.length s1 + String.length s2)%nat.
Proof.
  induction s1 as [|c s1 IH]; [reflexivity|].
  change (S (String.length (s1 +:+ s2))
          = S (String.length s1 + String.length s2)). now rewrite IH.
Qed.

(** X7. The header takes 1592 bytes and one more for each decimal digit of
    the vertex count. *)
Theorem header_size n :
  length (header_bytes n) = (1592 + String.length (str n))%nat /\
  (1 <= String.length (str n))%nat.
Proof.
  split.
  - unfold header_bytes.
    rewrite length_bytes_of_string, header_str_text, !length_append_string.
    change (String.length header_prefix) with 118%nat.
    change (String.length header_suffix) with 1474%nat. lia.
  - unfold str, NilZero.string_of_uint.
    destruct (Nat.to_uint n) eqn:E; simpl; lia.
Qed.

Lemma str_inj n m : str n = str m -> n = m.
Proof.
  unfold str. intros H.
  assert (Hnn : forall k, Nat.to_uint k <> Decimal.Nil).
  { intros k. rewrite <- (DecimalNat.Unsigned.of_to k) at 1.
    rewrite DecimalNat.Unsigned.to_of. apply DecimalFacts.unorm_nonnil. }
  apply (f_equal NilZero.uint_of_string) in H.
  rewrite !NilZero.usu in H by apply Hnn.
  injection H as H. apply (f_equal Nat.of_uint) in H.
  now rewrite !DecimalNat.Unsigned.of_to in H.
Qed.

Lemma append_inv_head p s1 s2 : p +:+ s1 = p +:+ s2 -> s1 = s2.
Proof.
  induction p as [|c p IH]; [trivial|].
  change (String c (p +:+ s1) = String c (p +:+ s2) -> s1 = s2).
  intros [= H]. auto.
Qed.

Lemma list_ascii_of_append s1 s2 :
  String.list_ascii_of_string (s1 +:+ s2)
  = String.list_ascii_of_string s1 ++ String.list_ascii_of_string s2.
Proof.
  induction s1 as [|c s1 IH]; [reflexivity|].
  change (c :: String.list_ascii_of_string (s1 +:+ s2)
          = c :: (String.list_ascii_of_string s1 ++ String.list_ascii_of_string s2)).
  now rewrite IH.
Qed.

Lemma append_inv_tail s1 s2 q : s1 +:+ q = s2 +:+ q -> s1 = s2.
Proof.
  intros H. apply (f_equal String.list_ascii_of_string) in H.
  rewrite !list_ascii_of_append in H. apply app_inv_tail in H.
  apply (f_equal String.string_of_list_ascii) in H.
  now rewrite !String.string_of_list_ascii_of_string in H.
Qed.

(** X8. The header records the vertex count: two headers with the same
    bytes are headers of the same count. *)
Theorem header_records_count n m : header_bytes n = header_bytes m -> n = m.
Proof.
  unfold header_bytes. intros H.
  apply (f_equal String.string_of_list_byte) in H.
  rewrite !String.string_of_list_byte_of_string, !header_str_text in H.
  apply append_inv_head, append_inv_tail in H. now apply str_inj.
Qed.

Lemma header_records_count_witness :
  header_bytes 7 = header_bytes 7 /\ 7%nat = 7%nat.
Proof.
  exact (conj eq_refl (header_records_count 7 7 eq_refl)).
Defined.

(** ** extract_data_from_ckpt *)

Lemma reshape_to_inv n w x y :
  reshape_to n w x = inr y -> size x = (n * w)%nat /\ y = Ndarray [n; w] (data x).
Proof.
  unfold reshape_to. destruct (Nat.eqb_spec (size x) (n * w)); [|discriminate].
  intros [= <-]. auto.
Qed.

Lemma reshape_to_ok n w x :
  size x = (n * w)%nat -> reshape_to n w x = inr (Ndarray [n; w] (data x)).
Proof. unfold reshape_to. intros ->. now rewrite Nat.eqb_refl. Qed.

Lemma extract_inv ckpt s' :
  extract_data_from_ckpt ckpt = inr s' ->
  exists s m n o h r,
    ckpt !! "splats" = Some s /\
    s !! "means" = Some m /\ shape0 m = inr n /\
    s !! "opacities" = Some o /\ size o = (n * 1)%nat /\
    s !! "sh0" = Some h /\ size h = (n * 3)%nat /\
    s !! "shN" = Some r /\ size r = (n * 45)%nat /\
    s' = extracted s n o h r.
Proof.
  unfold extract_data_from_ckpt, getitem.
  destruct (ckpt !! "splats") as [s|] eqn:Hs; [|discriminate]. cbn [rbind].
  destruct (s !! "means") as [m|] eqn:Hm; [|discriminate]. cbn [rbind].
  destruct (shape0 m) as [|n] eqn:Hn; [discriminate|]. cbn [rbind].
  destruct (s !! "opacities") as [o|] eqn:Ho; [|discriminate]. cbn [rbind].
  destruct (reshape_to n 1 o) as [|o'] eqn:Eo; [discriminate|]. cbn [rbind].
  rewrite lookup_insert_ne by discriminate.
  destruct (s !! "sh0") as [h|] eqn:Hh; [|discriminate]. cbn [rbind].
  destruct (reshape_to n 3 h) as [|h'] eqn:Eh; [discriminate|]. cbn [rbind].
  rewrite !lookup_insert_ne by discriminate.
  destruct (s !! "shN") as [r|] eqn:Hr; [|discriminate]. cbn [rbind].
  destruct (reshape_to n 45 r) as [|r'] eqn:Er; [discriminate|]. cbn [rbind].
  intros [= <-].
  apply reshape_to_inv in Eo as [So ->], Eh as [Sh ->], Er as [Sr ->].
  exists s, m, n, o, h, r. repeat split; assumption.
Qed.

Lemma extract_ok ckpt s m n o h r :
  ckpt !! "splats" = Some s ->
  s !! "means" = Some m -> shape0 m = inr n ->
  s !! "opacities" = Some o -> size o = (n * 1)%nat ->
  s !! "sh0" = Some h -> size h = (n * 3)%nat ->
  s !! "shN" = Some r -> size r = (n * 45)%nat ->
  extract_data_from_ckpt ckpt = inr (extracted s n o h r).
Proof.
  intros Hs Hm Hn Ho So Hh Sh Hr Sr.
  unfold extract_data_from_ckpt, getitem.
  rewrite Hs. cbn [rbind]. rewrite Hm. cbn [rbind]. rewrite Hn. cbn [rbind].
  rewrite Ho. cbn [rbind]. rewrite (reshape_to_ok n 1 o So). cbn [rbind].
  rewrite lookup_insert_ne by discriminate. rewrite Hh. cbn [rbind].
  rewrite (reshape_to_ok n 3 h Sh). cbn [rbind].
  rewrite !lookup_insert_ne by discriminate. rewrite Hr. cbn [rbind].
  rewrite (reshape_to_ok n 45 r Sr). reflexivity.
Qed.

(** X9. When [extract_data_from_ckpt] returns, opacities, sh0 and shN of
    the dictionary it returns have the shapes (n, 1), (n, 3) and (n, 45),
    with [n] the leading dimension of means, and the elements they had, of
    which there were n, 3n and 45n; every other entry of the splats is
    returned as it was. *)
Theorem extract_reshapes ckpt s' :
  extract_data_from_ckpt ckpt = inr s' ->
  exists s m n,
    ckpt !! "splats" = Some s /\
    s !! "means" = Some m /\ shape0 m = inr n /\
    Forall (fun c => exists x, s !! c.1 = Some x /\ size x = (n * c.2)%nat /\
                               s' !! c.1 = Some (Ndarray [n; c.2] (data x)))
           [("opacities", 1%nat); ("sh0", 3%nat); ("shN", 45%nat)] /\
    (forall key, key ∉ ["opacities"; "sh0"; "shN"] -> s' !! key = s !! key).
Proof.
  intros H.
  destruct (extract_inv ckpt s' H)
    as (s & m & n & o & h & r & Hs & Hm & Hn & Ho & So & Hh & Sh & Hr & Sr & ->).
  exists s, m, n. split; [exact Hs|]. split; [exact Hm|]. split; [exact Hn|].
  unfold extracted. split.
  - repeat constructor; cbn [fst snd].
    + exists o. repeat split; try assumption.
      rewrite !lookup_insert_ne by discriminate. apply lookup_insert_eq.
    + exists h. repeat split; try assumption.
      rewrite lookup_insert_ne by discriminate. apply lookup_insert_eq.
    + exists r. repeat split; try assumption. apply lookup_insert_eq.
  - intros key Hkey. rewrite !not_elem_of_cons in Hkey.
    destruct Hkey as (H1 & H2 & H3 & _).
    rewrite !lookup_insert_ne by congruence. reflexivity.
Qed.

Lemma extract_reshapes_witness :
  extract_data_from_ckpt (ckpt_of (dict_of trained_vertex))
  = inr (extracted (dict_of trained_vertex) 1 (opacities trained_vertex)
           (sh0 trained_vertex) (shN trained_vertex)) /\
  exists s m n,
    ckpt_of (dict_of trained_vertex) !! "splats" = Some s /\
    s !! "means" = Some m /\ shape0 m = inr n /\
    Forall (fun c => exists x, s !! c.1 = Some x /\ size x = (n * c.2)%nat /\
                               extracted (dict_of trained_vertex) 1
                                 (opacities trained_vertex) (sh0 trained_vertex)
                                 (shN trained_vertex) !! c.1
                               = Some (Ndarray [n; c.2] (data x)))
           [("opacities", 1%nat); ("sh0", 3%nat); ("shN", 45%nat)] /\
    (forall key, key ∉ ["opacities"; "sh0"; "shN"] ->
       extracted (dict_of trained_vertex) 1 (opacities trained_vertex)
         (sh0 trained_vertex) (shN trained_vertex) !! key = s !! key).
Proof.
  assert (H : extract_data_from_ckpt (ckpt_of (dict_of trained_vertex))
              = inr (extracted (dict_of trained_vertex) 1 (opacities trained_vertex)
                       (sh0 trained_vertex) (shN trained_vertex)))
    by (vm_compute; reflexivity).
  exact (conj H (extract_reshapes _ _ H)).
Defined.

Lemma size_2d n w xs : size (Ndarray [n; w] xs) = (n * w)%nat.
Proof. unfold size. simpl. lia. Qed.

(** X10. Extracting twice changes nothing more: the dictionary a call
    returns, put back in the checkpoint, is returned as it is. *)
Theorem extract_idempotent ckpt s' :
  extract_data_from_ckpt ckpt = inr s' ->
  extract_data_from_ckpt (<["splats" := s']> ckpt) = inr s'.
Proof.
  intros H.
  destruct (extract_inv ckpt s' H)
    as (s & m & n & o & h & r & Hs & Hm & Hn & Ho & So & Hh & Sh & Hr & Sr & ->).
  set (s' := extracted s n o h r).
  assert (Lm : s' !! "means" = Some m).
  { unfold s', extracted. now rewrite !lookup_insert_ne by discriminate. }
  assert (Lo : s' !! "opacities" = Some (Ndarray [n; 1%nat] (data o))).
  { unfold s', extracted. rewrite !lookup_insert_ne by discriminate.
    apply lookup_insert_eq. }
  assert (Lh : s' !! "sh0" = Some (Ndarray [n; 3%nat] (data h))).
  { unfold s', extracted. rewrite lookup_insert_ne by discriminate.
    apply lookup_insert_eq. }
  assert (Lr : s' !! "shN" = Some (Ndarray [n; 45%nat] (data r))).
  { unfold s', extracted. apply lookup_insert_eq. }
  rewrite (extract_ok (<["splats" := s']> ckpt) s' m n _ _ _
             (lookup_insert_eq _ _ _) Lm Hn Lo (size_2d _ _ _) Lh (size_2d _ _ _)
             Lr (size_2d _ _ _)).
  f_equal. unfold extracted. cbn [data].
  rewrite (insert_id s' "opacities" _ Lo), (insert_id s' "sh0" _ Lh).
  apply (insert_id s' "shN" _ Lr).
Qed.

Lemma extract_idempotent_witness :
  extract_data_from_ckpt (ckpt_of (dict_of trained_vertex))
  = inr (extracted (dict_of trained_vertex) 1 (opacities trained_vertex)
           (sh0 trained_vertex) (shN trained_vertex)) /\
  extract_data_from_ckpt
    (<["splats" := extracted (dict_of trained_vertex) 1 (opacities trained_vertex)
                     (sh0 trained_vertex) (shN trained_vertex)]>
       (ckpt_of (dict_of trained_vertex)))
  = inr (extracted (dict_of trained_vertex) 1 (opacities trained_vertex)
           (sh0 trained_vertex) (shN trained_vertex)).
Proof.
  assert (H : extract_data_from_ckpt (ckpt_of (dict_of trained_vertex))
              = inr (extracted (dict_of trained_vertex) 1 (opacities trained_vertex)
                       (sh0 trained_vertex) (shN trained_vertex)))
    by (vm_compute; reflexivity).
  exact (conj H (extract_idempotent _ _ H)).
Defined.

(** ** main *)

Lemma extracted_lookups s m n o h r q sc :
  s !! "means" = Some m -> s !! "quats" = q -> s !! "scales" = sc ->
  extracted s n o h r !! "means" = Some m /\
  extracted s n o h r !! "opacities" = Some (Ndarray [n; 1%nat] (data o)) /\
  extracted s n o h r !! "quats" = q /\
  extracted s n o h r !! "scales" = sc /\
  extracted s n o h r !! "sh0" = Some (Ndarray [n; 3%nat] (data h)) /\
  extracted s n o h r !! "shN" = Some (Ndarray [n; 45%nat] (data r)).
Proof.
  intros Hm Hq Hs. unfold extracted.
  repeat split;
    rewrite ?(lookup_insert_ne _ "shN") by discriminate;
    rewrite ?(lookup_insert_ne _ "sh0") by discriminate;
    rewrite ?(lookup_insert_ne _ "opacities") by discriminate;
    try assumption; apply lookup_insert_eq.
Qed.

Lemma holds_as_2d n w x : holds n w x -> canonical n w (as_2d n w x).
Proof.
  intros (Hsize & Hwf & Hfit). unfold canonical, as_2d. cbn [shape data].
  split; [now left|]. split; [|exact Hfit].
  unfold wf_array in *. cbn [data]. rewrite size_2d. congruence.
Qed.

(** X11. On a checkpoint whose splats hold means of shape (n, 3), quats
    and scales in canonical form and opacities, sh0 and shN of any shape
    with n, 3n and 45n elements (such as sh0 of shape (n, 1, 3) and shN of
    shape (n, 15, 3)), [main] succeeds: the file holds the header and the
    n records of the arrays read in row-major order. *)
Theorem main_converts ckpt splats n a path w :
  ckpt !! "splats" = Some splats ->
  valid_checkpoint splats n a ->
  main ckpt path w
  = (written path n (header_bytes n ++ body_bytes (reshaped n a) n) w, inr tt).
Proof.
  intros Hs [Hm Ho Hq Hsc Hh Hr (Sm & Wm & Fm) Co Cq Csc Ch Cr].
  assert (Hn : shape0 (means a) = inr n) by (unfold shape0; now rewrite Sm).
  pose proof (extract_ok ckpt splats _ n _ _ _ Hs Hm Hn Ho (proj1 Co)
                Hh (proj1 Ch) Hr (proj1 Cr)) as Hex.
  destruct (extracted_lookups splats _ n (opacities a) (sh0 a) (shN a) _ _
              Hm Hq Hsc) as (Lm & Lo & Lq & Ls & Lh & Lr).
  unfold main. unfold bind at 1. unfold lift at 1. rewrite Hex.
  unfold required_keys. cbn [List.filter]. unfold not_in.
  rewrite Lm, Lo, Lq, Ls, Lh, Lr.
  rewrite (convert_valid _ n
             (Arrays (means a) (as_2d n 1 (opacities a)) (quats a) (scales a)
                     (as_2d n 3 (sh0 a)) (as_2d n 45 (shN a)))).
  - reflexivity.
  - split; cbn [means opacities quats scales sh0 shN]; try assumption.
    + split; [now left|]. split; assumption.
    + now apply holds_as_2d.
    + now apply holds_as_2d.
    + now apply holds_as_2d.
Qed.

Lemma main_converts_witness :
  ckpt_of (dict_of trained_vertex) !! "splats" = Some (dict_of trained_vertex) /\
  valid_checkpoint (dict_of trained_vertex) 1 trained_vertex /\
  main (ckpt_of (dict_of trained_vertex)) "out.ply" world0
  = (written "out.ply" 1
       (header_bytes 1 ++ body_bytes (reshaped 1 trained_vertex) 1) world0, inr tt).
Proof.
  assert (Hv : valid_checkpoint (dict_of trained_vertex) 1 trained_vertex).
  { split;
      [ reflexivity | reflexivity | reflexivity | reflexivity | reflexivity
      | reflexivity | .. ];
      first [ split; [left; reflexivity | split; [reflexivity | repeat constructor]]
            | split; [reflexivity | split; [reflexivity | repeat constructor]] ]. }
  exact (conj eq_refl (conj Hv
    (main_converts (ckpt_of (dict_of trained_vertex)) (dict_of trained_vertex) 1
       trained_vertex "out.ply" world0 eq_refl Hv))).
Defined.

(** The trained vertex gives the file of the one-vertex scene. *)
Example trained_vertex_file :
  files (main (ckpt_of (dict_of trained_vertex)) "out.ply" world0).1 !! "out.ply"
  = Some (header_bytes 1 ++ one_vertex_body).
Proof. vm_compute. reflexivity. Qed.

(** [main] once the extraction has returned: only quats and scales can
    still be absent. *)
Lemma main_after_extract ckpt s' path w :
  extract_data_from_ckpt ckpt = inr s' ->
  main ckpt path w
  = match List.filter (not_in s') ["quats"; "scales"] with
    | [] => convert_checkpoint_to_ply s' path w
    | keys => print (MissingKeys keys) w
    end.
Proof.
  intros H.
  destruct (extract_inv ckpt s' H)
    as (s & m & n & o & h & r & Hs & Hm & Hn & Ho & So & Hh & Sh & Hr & Sr & ->).
  destruct (extracted_lookups s m n o h r _ _ Hm eq_refl eq_refl)
    as (Lm & Lo & Lq & Ls & Lh & Lr).
  unfold main. unfold bind at 1. unfold lift at 1. rewrite H.
  unfold required_keys. cbn [List.filter]. unfold not_in.
  rewrite Lm, Lo, Lh, Lr, Lq, Ls.
  destruct (s !! "quats"), (s !! "scales"); reflexivity.
Qed.

(** X12. The presence check of [main] can only report quats and scales:
    when the extraction has returned and one of them is absent, [main]
    prints the absent ones among them, in this order, opens no file and
    returns. *)
Theorem main_reports_missing ckpt s' path w :
  extract_data_from_ckpt ckpt = inr s' ->
  s' !! "quats" = None \/ s' !! "scales" = None ->
  main ckpt path w
  = (World (files w)
           (stdout w ++ [MissingKeys (List.filter (not_in s') ["quats"; "scales"])]),
     inr tt).
Proof.
  intros H Hmiss. rewrite (main_after_extract ckpt s' path w H).
  cbn [List.filter]. unfold not_in.
  destruct (s' !! "quats"), (s' !! "scales"); try reflexivity.
  destruct Hmiss; discriminate.
Qed.

Lemma main_reports_missing_witness :
  extract_data_from_ckpt
    (ckpt_of (delete "scales" (delete "quats" (dict_of trained_vertex))))
  = inr (extracted (delete "scales" (delete "quats" (dict_of trained_vertex))) 1
           (opacities trained_vertex) (sh0 trained_vertex) (shN trained_vertex)) /\
  main (ckpt_of (delete "scales" (delete "quats" (dict_of trained_vertex))))
       "out.ply" world0
  = (World ∅ [MissingKeys ["quats"; "scales"]], inr tt).
Proof.
  assert (H : extract_data_from_ckpt
                (ckpt_of (delete "scales" (delete "quats" (dict_of trained_vertex))))
              = inr (extracted
                       (delete "scales" (delete "quats" (dict_of trained_vertex))) 1
                       (opacities trained_vertex) (sh0 trained_vertex)
                       (shN trained_vertex)))
    by (vm_compute; reflexivity).
  exact (conj H (main_reports_missing _ _ "out.ply" world0 H (or_introl eq_refl))).
Defined.

(** ** The loop as a sequence of packed values *)

Lemma run_packs_app rs1 rs2 :
  run_packs (rs1 ++ rs2)
  = match (run_packs rs1).2 with
    | inl e => run_packs rs1
    | inr _ => ((run_packs rs1).1 ++ (run_packs rs2).1, (run_packs rs2).2)
    end.
Proof.
  induction rs1 as [|[e|bs] rs1 IH]; cbn [app run_packs fst snd].
  - now destruct (run_packs rs2).
  - reflexivity.
  - rewrite IH. destruct (run_packs rs1) as [more [e|u]]; cbn [fst snd];
      [reflexivity|]. now rewrite app_assoc.
Qed.

Lemma packs_packed (r : res (list byte)) :
  packs_as [r] (fun f => do bs <- lift r; write f bs).
Proof.
  intros f m out acc. destruct r as [e|bs]; cbn [run_packs fst snd].
  - unfold bind, lift. now rewrite app_nil_r.
  - rewrite app_nil_r. unfold bind, lift. apply write_at.
Qed.

Lemma packs_then rs1 rs2 (p q : string -> io unit) :
  packs_as rs1 p -> packs_as rs2 q -> packs_as (rs1 ++ rs2) (fun f => p f ;; q f).
Proof.
  intros Hp Hq f m out acc. unfold bind. rewrite Hp, run_packs_app.
  destruct (run_packs rs1) as [more1 [e|[]]]; cbn [fst snd]; [reflexivity|].
  now rewrite Hq, app_assoc.
Qed.

Lemma packs_for_each (g : nat -> list (res (list byte)))
    (body : string -> nat -> io unit) (range : list nat) :
  (forall i, packs_as (g i) (fun f => body f i)) ->
  packs_as (flat_map g range) (fun f => for_each range (body f)).
Proof.
  intros Hbody. induction range as [|i range IH]; cbn [for_each flat_map].
  - intros f m out acc. unfold ret. cbn [run_packs fst snd]. now rewrite app_nil_r.
  - apply (packs_then (g i) (flat_map g range) (fun f => body f i)
             (fun f => for_each range (body f))); [apply Hbody|exact IH].
Qed.

Lemma map_flat_map {A B} (g : A -> B) (l : list A) :
  map g l = flat_map (fun x => [g x]) l.
Proof. induction l as [|x l IH]; cbn [map flat_map app]; congruence. Qed.

Lemma packs_write_vertex a i :
  packs_as (vertex_packs a i) (fun f => write_vertex f a i).
Proof.
  unfold write_vertex, vertex_packs, for_range.
  apply (packs_then [_] _ _ _ (packs_packed _)).
  apply (packs_then [_] _ _ _ (packs_packed _)).
  apply (packs_then [_] _ _ _ (packs_packed _)).
  apply packs_then.
  { rewrite map_flat_map.
    apply (packs_for_each (fun j => [pack_row (shN a) i [j]])
             (fun f j => do bs <- lift (pack_row (shN a) i [j]); write f bs)).
    intros j. apply packs_packed. }
  apply (packs_then [_] _ _ _ (packs_packed _)).
  apply (packs_then [_] [_] _ _ (packs_packed _)).
  apply packs_packed.
Qed.

Lemma packs_loop a n :
  packs_as (loop_packs a n) (fun f => for_range n (write_vertex f a)).
Proof.
  unfold loop_packs, for_range.
  apply (packs_for_each (vertex_packs a) (fun f => write_vertex f a)).
  apply packs_write_vertex.
Qed.

Lemma run_as_packs d a n path w :
  load_arrays d = inr a -> check_rows a = inr n ->
  convert_checkpoint_to_ply d path w
  = (World (<[path := header_bytes n ++ (run_packs (loop_packs a n)).1]> (files w))
           (stdout w ++ Converting n
              :: closing_lines path
                   (header_bytes n ++ (run_packs (loop_packs a n)).1)
                   (run_packs (loop_packs a n)).2),
     (run_packs (loop_packs a n)).2).
Proof.
  intros Hload Hrows. unfold convert_checkpoint_to_ply.
  unfold bind at 1. unfold lift at 1. rewrite Hload.
  unfold bind at 1. unfold lift at 1. rewrite Hrows.
  unfold bind at 1. unfold print at 1. cbn [files stdout].
  unfold bind at 1. unfold bind at 1. unfold open_wb at 1. cbn [files stdout].
  fold (writing path (files w) (stdout w ++ [Converting n]) []).
  erewrite seq_step by apply write_packed, encode_header. cbn [app].
  rewrite (packs_loop a n).
  destruct (run_packs (loop_packs a n)) as [more [e|[]]]; cbn [fst snd];
    unfold writing, closing_lines.
  - reflexivity.
  - unfold bind, print, st_size. cbn [files stdout].
    rewrite lookup_insert_eq. now rewrite <- !app_assoc.
Qed.

(** X13. Once the row checks have passed, the run is the sequence of its
    calls of [struct.pack]: the file holds the header and then the packed
    values up to the first call that raises, and the run ends as that call
    does, or returns when none raises. *)
Theorem file_is_packed_prefix d a n path w :
  load_arrays d = inr a -> check_rows a = inr n ->
  (convert_checkpoint_to_ply d path w).2 = (run_packs (loop_packs a n)).2 /\
  files (convert_checkpoint_to_ply d path w).1 !! path
  = Some (header_bytes n ++ (run_packs (loop_packs a n)).1).
Proof.
  intros Hload Hrows. rewrite (run_as_packs d a n path w Hload Hrows).
  cbn [fst snd files]. split; [reflexivity|apply lookup_insert_eq].
Qed.

Lemma file_is_packed_prefix_witness :
  load_arrays (dict_of two_means) = inr two_means /\
  check_rows two_means = inr 1%nat /\
  (convert_checkpoint_to_ply (dict_of two_means) "out.ply" world0).2
  = (run_packs (loop_packs two_means 1)).2 /\
  files (convert_checkpoint_to_ply (dict_of two_means) "out.ply" world0).1
    !! "out.ply"
  = Some (header_bytes 1 ++ (run_packs (loop_packs two_means 1)).1).
Proof.
  exact (conj eq_refl (conj eq_refl
    (file_is_packed_prefix (dict_of two_means) two_means 1 "out.ply" world0
       eq_refl eq_refl))).
Defined.

(** ** Arrays with too few columns *)

Lemma run_packs_raises rs :
  Exists (fun r => exists e, r = inl e) rs -> exists e, (run_packs rs).2 = inl e.
Proof.
  induction rs as [|[e|bs] rs IH]; intros H.
  - inversion H.
  - exists e. reflexivity.
  - cbn [run_packs snd]. apply IH.
    inversion H as [? ? [e He]|]; subst; [discriminate|assumption].
Qed.

Lemma pack_row_narrow y i js r c :
  shape y = [r; c] -> Exists (fun j => (c <= j)%nat) js ->
  exists e, pack_row y i js = inl e.
Proof.
  intros Hs Hex. unfold pack_row.
  assert (H : exists e, eval_args (map (index2 y i) js) = inl e).
  { induction Hex as [j js Hj|j js _ IH]; cbn [map eval_args].
    - unfold index2 at 1. rewrite Hs.
      replace (j <? c)%nat with false by (symmetry; apply Nat.ltb_ge; lia).
      rewrite andb_false_r. cbn [rbind]. eauto.
    - destruct (index2 y i j); cbn [rbind]; [eauto|].
      destruct IH as [e ->]. cbn [rbind]. eauto. }
  destruct H as [e ->]. cbn [rbind]. eauto.
Qed.

Lemma vertex_packs_narrow a i key width y r c :
  (key, width, y) ∈ loaded_fields a -> shape y = [r; c] -> (c < width)%nat ->
  Exists (fun p => exists e, p = inl e) (vertex_packs a i).
Proof.
  unfold loaded_fields, vertex_packs. intros Hin Hs Hc.
  repeat (apply elem_of_cons in Hin as [Hin|Hin]; [injection Hin as -> -> ->|]);
    [ | | | | | | now apply elem_of_nil in Hin ].
  - apply Exists_cons_hd, (pack_row_narrow _ _ _ r c Hs).
    apply Exists_cons_tl, Exists_cons_tl, Exists_cons_hd. lia.
  - apply Exists_app. right. apply Exists_app. right.
    apply Exists_cons_hd, (pack_row_narrow _ _ _ r c Hs).
    apply Exists_cons_hd. lia.
  - apply Exists_app. right. apply Exists_app. right.
    do 2 apply Exists_cons_tl.
    apply Exists_cons_hd, (pack_row_narrow _ _ _ r c Hs).
    do 3 apply Exists_cons_tl. apply Exists_cons_hd. lia.
  - apply Exists_app. right. apply Exists_app. right.
    apply Exists_cons_tl.
    apply Exists_cons_hd, (pack_row_narrow _ _ _ r c Hs).
    do 2 apply Exists_cons_tl. apply Exists_cons_hd. lia.
  - do 2 apply Exists_cons_tl.
    apply Exists_cons_hd, (pack_row_narrow _ _ _ r c Hs).
    do 2 apply Exists_cons_tl. apply Exists_cons_hd. lia.
  - apply Exists_app. right. apply Exists_app. left.
    apply Exists_exists. exists (pack_row (shN a) i [44%nat]). split.
    + apply (list_elem_of_fmap_2 (fun j => pack_row (shN a) i [j])).
      apply elem_of_seq. lia.
    + apply (pack_row_narrow _ _ _ r c Hs). apply Exists_cons_hd. lia.
Qed.

(** X14. A 2-D array with fewer columns than its field passes the row
    checks but, when there is a vertex, the run raises after the file was
    opened: the file is left with its header and fewer bytes than the
    records take. *)
Theorem narrow_array_fails d a n path w key width y c :
  load_arrays d = inr a -> check_rows a = inr n -> (0 < n)%nat ->
  (key, width, y) ∈ loaded_fields a -> shape y = [n; c] -> (c < width)%nat ->
  exists e bs,
    (convert_checkpoint_to_ply d path w).2 = inl e /\ loop_error e /\
    files (convert_checkpoint_to_ply d path w).1 !! path = Some bs /\
    (length (header_bytes n) <= length bs < length (header_bytes n) + n * 248)%nat.
Proof.
  intros Hload Hrows Hn Hin Hs Hc.
  destruct (run_packs_raises (loop_packs a n)) as [e He].
  { unfold loop_packs. destruct n as [|n]; [lia|]. cbn [seq flat_map].
    apply Exists_app. left.
    exact (vertex_packs_narrow a 0 key width y (S n) c Hin Hs Hc). }
  destruct (run_emits d a n Hload Hrows) as (more & r & Hrun & Hlen).
  pose proof (run_as_packs d a n path w Hload Hrows) as Hpacks.
  rewrite Hrun in Hpacks. apply (f_equal snd) in Hpacks. cbn [snd] in Hpacks.
  rewrite He in Hpacks. subst r. destruct Hlen as [Hlt Herr].
  exists e, (header_bytes n ++ more). rewrite Hrun. cbn [fst snd files].
  rewrite lookup_insert_eq, length_app. repeat split; (assumption || lia).
Qed.

Lemma narrow_array_fails_witness :
  load_arrays (dict_of two_means) = inr two_means /\
  check_rows two_means = inr 1%nat /\ (0 < 1)%nat /\
  ("means", 3%nat, means two_means) ∈ loaded_fields two_means /\
  shape (means two_means) = [1%nat; 2%nat] /\ (2 < 3)%nat /\
  exists e bs,
    (convert_checkpoint_to_ply (dict_of two_means) "out.ply" world0).2 = inl e /\
    loop_error e /\
    files (convert_checkpoint_to_ply (dict_of two_means) "out.ply" world0).1
      !! "out.ply" = Some bs /\
    (length (header_bytes 1) <= length bs < length (header_bytes 1) + 1 * 248)%nat.
Proof.
  assert (Hin : ("means", 3%nat, means two_means) ∈ loaded_fields two_means)
    by (unfold loaded_fields; in_list).
  assert (H1 : (0 < 1)%nat) by lia.
  assert (H2 : (2 < 3)%nat) by lia.
  exact (conj eq_refl (conj eq_refl (conj H1 (conj Hin (conj eq_refl (conj H2
    (narrow_array_fails (dict_of two_means) two_means 1 "out.ply" world0
       "means" 3 (means two_means) 2 eq_refl eq_refl H1 Hin eq_refl H2))))))).
Defined.

(** ** No vertex *)

(** X15. Without vertices nothing is read from the arrays: whenever the
    six arrays load and all have zero rows, whatever their other
    dimensions, the run succeeds and the file is the header of zero
    vertices. *)
Theorem no_rows_any_width d a path w :
  load_arrays d = inr a -> check_rows a = inr 0%nat ->
  convert_checkpoint_to_ply d path w = (written path 0 (header_bytes 0) w, inr tt).
Proof.
  intros Hload Hrows. rewrite (run_as_packs d a 0 path w Hload Hrows).
  unfold loop_packs. cbn [seq flat_map run_packs fst snd closing_lines].
  unfold written. now rewrite app_nil_r.
Qed.

Lemma no_rows_any_width_witness :
  load_arrays (dict_of odd_empty)
  = inr (Arrays (Ndarray [0; 7]%nat []) (Ndarray [0; 1]%nat [])
                (Ndarray [0; 2; 2]%nat []) (Ndarray [0; 0]%nat [])
                (Ndarray [0; 3]%nat []) (Ndarray [0; 1]%nat [])) /\
  check_rows (Arrays (Ndarray [0; 7]%nat []) (Ndarray [0; 1]%nat [])
                     (Ndarray [0; 2; 2]%nat []) (Ndarray [0; 0]%nat [])
                     (Ndarray [0; 3]%nat []) (Ndarray [0; 1]%nat []))
  = inr 0%nat /\
  convert_checkpoint_to_ply (dict_of odd_empty) "out.ply" world0
  = (written "out.ply" 0 (header_bytes 0) world0, inr tt).
Proof.
  exact (conj eq_refl (conj eq_refl
    (no_rows_any_width (dict_of odd_empty) _ "out.ply" world0 eq_refl eq_refl))).
Defined.

(** ** The row checks *)

(** X16. The row checks pass with count [n] exactly when the six loaded
    arrays all have [n] as leading dimension; the other dimensions play no
    part. *)
Theorem check_rows_iff a n :
  check_rows a = inr n <-> Forall (fun c => shape0 c.2 = inr n) (loaded_fields a).
Proof.
  split; [apply check_rows_inr|].
  unfold loaded_fields. intros H.
  repeat (apply Forall_cons_1 in H as [? H]). cbn [snd] in *.
  unfold check_rows, assert_rows.
  repeat match goal with
         | E : shape0 _ = inr n |- _ => rewrite E; clear E
         end.
  cbn [rbind]. rewrite Nat.eqb_refl. reflexivity.
Qed.

(** ** Flat arrays that cannot be reshaped *)

Lemma ensure_2d_value_error w x :
  ndim x = 1%nat -> (size x mod w)%nat <> 0%nat ->
  ensure_2d w x = inl (ValueError (size x) w).
Proof.
  intros Hd Hm. unfold ensure_2d, reshape_rows. rewrite Hd. cbn [Nat.eqb].
  apply Nat.eqb_neq in Hm. now rewrite Hm.
Qed.

(** X17. The six reshapes come before the row checks: when the six keys
    are present, the run stops with the ValueError of the first array, in
    the order means, opacities, quats, scales, sh0, shN, that is flat with
    a size its width does not divide, whatever the row counts of the
    others; the world is left as it was. *)
Theorem first_reshape_error d key width x before after path w :
  Forall (fun k => is_Some (d !! k)) required_keys ->
  field_widths = before ++ (key, width) :: after ->
  Forall (fun c => forall y, d !! c.1 = Some y -> exists y', ensure_2d c.2 y = inr y')
         before ->
  d !! key = Some x -> ndim x = 1%nat -> (size x mod width)%nat <> 0%nat ->
  convert_checkpoint_to_ply d path w = (w, inl (ValueError (size x) width)).
Proof.
  intros Hkeys Heq Hbefore Hx Hd Hmod. apply convert_load_fails.
  pose proof (ensure_2d_value_error width x Hd Hmod) as Herr.
  unfold required_keys in Hkeys.
  repeat (apply Forall_cons_1 in Hkeys as [[? ?] Hkeys]).
  unfold field_widths in Heq.
  do 6 (destruct before as [|[k0 w0] before];
        [ injection Heq as <- <- _;
          unfold load_arrays, getitem; rewrite Hx;
          repeat match goal with
                 | E : d !! _ = Some _ |- _ => rewrite E
                 end;
          cbn [rbind];
          repeat match goal with
                 | E : ensure_2d _ _ = _ |- _ => rewrite E; cbn [rbind]
                 end;
          first [reflexivity | congruence]
        | injection Heq as <- <- Heq;
          apply Forall_cons_1 in Hbefore as [Hb Hbefore]; cbn [fst snd] in Hb;
          match type of Hb with
          | forall y, d !! ?k = Some y -> _ =>
              match goal with
              | E : d !! k = Some ?v |- _ => destruct (Hb v E) as [? ?]
              end
          end; clear Hb ]).
  destruct before; discriminate.
Qed.

Lemma first_reshape_error_witness :
  Forall (fun k => is_Some (dict_of ragged !! k)) required_keys /\
  field_widths
  = [] ++ ("means", 3%nat) :: [ ("opacities", 1%nat); ("quats", 4%nat);
                                ("scales", 3%nat); ("sh0", 3%nat); ("shN", 45%nat) ] /\
  dict_of ragged !! "means" = Some (means ragged) /\
  ndim (means ragged) = 1%nat /\ (size (means ragged) mod 3)%nat <> 0%nat /\
  convert_checkpoint_to_ply (dict_of ragged) "out.ply" world0
  = (world0, inl (ValueError 4 3)).
Proof.
  assert (Hkeys : Forall (fun k => is_Some (dict_of ragged !! k)) required_keys).
  { repeat constructor; eexists; reflexivity. }
  assert (Hmod : (size (means ragged) mod 3)%nat <> 0%nat) by (vm_compute; lia).
  exact (conj Hkeys (conj eq_refl (conj eq_refl (conj eq_refl (conj Hmod
    (first_reshape_error (dict_of ragged) "means" 3 (means ragged) [] _
       "out.ply" world0 Hkeys eq_refl (List.Forall_nil _) eq_refl eq_refl Hmod)))))).
Defined.

(** ** What [main] leaves alone *)

(** X18. [main] writes to the output path only: whether it raises, reports
    missing keys or converts, every other file is as it was. *)
Theorem main_only_output_path ckpt path w p :
  p <> path -> files (main ckpt path w).1 !! p = files w !! p.
Proof.
  intros Hp.
  destruct (extract_data_from_ckpt ckpt) as [e|s'] eqn:H.
  { unfold main, bind, lift. now rewrite H. }
  rewrite (main_after_extract ckpt s' path w H).
  destruct (List.filter (not_in s') ["quats"; "scales"]).
  - now apply convert_frame.
  - reflexivity.
Qed.

Lemma main_only_output_path_witness :
  "other.ply" <> "out.ply" /\
  files (main (ckpt_of (dict_of trained_vertex)) "out.ply"
           (World {["other.ply" := [x00]]} [])).1 !! "other.ply"
  = Some [x00].
Proof.
  assert (H : "other.ply" <> "out.ply") by discriminate.
  exact (conj H (main_only_output_path (ckpt_of (dict_of trained_vertex)) "out.ply"
                   (World {["other.ply" := [x00]]} []) "other.ply" H)).
Defined.
